(** * daylight-timeseries: the daylight poller and its InfluxDB writers

    A shallow embedding of [main.go] (the InfluxDB v2 program) and of the
    earlier InfluxDB v1 program that ships next to it, followed by the
    properties of the daylight evaluation, the sunrise/sunset cache, the
    poll cadence, the submitted points, the connection set-up and the
    shutdown path. *)

From Stdlib Require Import ZArith List Lia Bool Floats.
From stdpp Require Import gmap strings.
Import ListNotations.

Local Open Scope Z_scope.

(** ** Go's fixed-width integers *)

Module GoInt.

(** Two's-complement reduction of an integer to [w] bits, which is what
    a Go conversion to a narrower signed type and every signed
    [+], [-], [*] do on overflow. *)
Definition wrapS (w z : Z) : Z := (z + 2 ^ (w - 1)) mod 2 ^ w - 2 ^ (w - 1).

Definition int32 (z : Z) : Z := wrapS 32 z.
Definition int64 (z : Z) : Z := wrapS 64 z.

(** [uint] is 64 bits wide on the platforms the program is built for. *)
Definition uint (z : Z) : Z := z mod 2 ^ 64.

Definition sub32 (a b : Z) : Z := int32 (a - b).
Definition sub64 (a b : Z) : Z := int64 (a - b).
Definition mul64 (a b : Z) : Z := int64 (a * b).
Definition mulU (a b : Z) : Z := uint (a * b).

Definition inInt32 (z : Z) : Prop := - 2 ^ 31 <= z < 2 ^ 31.
Definition inInt64 (z : Z) : Prop := - 2 ^ 63 <= z < 2 ^ 63.

End GoInt.

(** ** The part of package [time] the program uses *)

Module GoTime.
Import GoInt.

(** [time.Duration] is an [int64] count of nanoseconds. *)
Definition Duration := Z.

Definition Nanosecond : Duration := 1.
Definition Second : Duration := 1000000000 * Nanosecond.
Definition Minute : Duration := 60 * Second.
Definition Hour : Duration := 60 * Minute.

(** A [*time.Location] maps a Unix second to the zone offset (seconds
    east of UTC) in force at that second. *)
Record Location : Type := mkLocation { lookup : Z -> Z }.

Definition UTC : Location := mkLocation (fun _ => 0).
Definition FixedZone (offset : Z) : Location := mkLocation (fun _ => offset).

(** A [time.Time]: the instant, in nanoseconds since the Unix epoch, and
    the location its calendar fields are read in. *)
Record Time : Type := mkTime { unixNano : Z; loc : Location }.

Definition Unix (t : Time) : Z := unixNano t / Second.

Definition Add (t : Time) (d : Duration) : Time :=
  mkTime (unixNano t + d) (loc t).

Definition Before (t u : Time) : bool := unixNano t <? unixNano u.
Definition After (t u : Time) : bool := unixNano u <? unixNano t.

(** Days since 1970-01-01 to the proleptic Gregorian (year, month, day);
    this is the conversion behind [Time.Date]. *)
Definition civil (days : Z) : Z * Z * Z :=
  let z := days + 719468 in
  let era := z / 146097 in
  let doe := z mod 146097 in
  let yoe := (doe - doe / 1460 + doe / 36524 - doe / 146096) / 365 in
  let doy := doe - (365 * yoe + yoe / 4 - yoe / 100) in
  let mp := (5 * doy + 2) / 153 in
  let d := doy - (153 * mp + 2) / 5 + 1 in
  let m := if mp <? 10 then mp + 3 else mp - 9 in
  let y := yoe + era * 400 + (if m <=? 2 then 1 else 0) in
  (y, m, d).

(** The inverse direction, used by [Date]. *)
Definition daysFromCivil (y m d : Z) : Z :=
  let y' := if m <=? 2 then y - 1 else y in
  let era := y' / 400 in
  let yoe := y' mod 400 in
  let doy := (153 * (if 2 <? m then m - 3 else m + 9) + 2) / 5 + d - 1 in
  let doe := yoe * 365 + yoe / 4 - yoe / 100 + doy in
  era * 146097 + doe - 719468.

(** The seconds from the start of the absolute zero year, -292277022399,
    to the Unix epoch: [unixToInternal + internalToAbsolute]. *)
Definition unixToAbsolute : Z := 9223372028715321600.

(** [Time.abs]: the seconds of [t] since the absolute zero year, read in
    [t]'s own location, as the [uint64] Go computes them in; for an
    instant before that year the count wraps. *)
Definition abs (t : Time) : Z :=
  (Unix t + lookup (loc t) (Unix t) + unixToAbsolute) mod 2 ^ 64.

(** The day [Time.Date] finds for [t] on the calendar of [t]'s own
    location, numbered from 1970-01-01: the whole days of [abs t],
    counted from the day of the Unix epoch. *)
Definition localDays (t : Time) : Z :=
  abs t / 86400 - unixToAbsolute / 86400.

Definition Year (t : Time) : Z := fst (fst (civil (localDays t))).
Definition Month (t : Time) : Z := snd (fst (civil (localDays t))).
(** [Time.Day]: the day of the month, 1 to 31. *)
Definition Day (t : Time) : Z := snd (civil (localDays t)).

(** [time.Date] in a fixed-offset zone. *)
Definition Date (y m d hour min sec offset : Z) : Time :=
  mkTime ((daysFromCivil y m d * 86400 + hour * 3600 + min * 60 + sec - offset) * Second)
         (FixedZone offset).

(** The zero [time.Time{}]: January 1, year 1, 00:00:00 UTC. *)
Definition zeroTime : Time := Date 1 1 1 0 0 0 0.

(** [time.Sleep d] returns at once when [d] is zero or negative; this is
    the time the caller is paused for. *)
Definition Sleep (d : Duration) : Duration := Z.max 0 d.

End GoTime.

Import GoInt GoTime.

(** ** Configuration *)

Record InfluxDB : Type := mkInfluxDB {
  Address : string;
  Username : string;
  Password : string;
  MeasurementPrefix : string;
  Database : string;
  RetentionPolicy : string;
  Token : string;
  Organization : string;
  Bucket : string;
  SkipVerifySsl : bool;
  FlushInterval : Z
}.

Record Configuration : Type := mkConfiguration {
  Latitude : float;
  Longitude : float;
  PollInterval : Duration;
  influxDB : InfluxDB
}.

(** ** Points and the effects of the program *)

(** A value stored in a [map[string]interface{}] of fields. *)
Inductive Value : Type :=
| VBool (b : bool)
| VInt (z : Z)
| VFloat (f : float)
| VString (s : string).

(** What [influx.NewPoint] is given: measurement, tags, fields, timestamp. *)
Record Point : Type := mkPoint {
  measurement : string;
  tags : gmap string string;
  fields : gmap string Value;
  ptime : Time
}.

Definition NewPoint (m : string) (tg : gmap string string)
    (fl : gmap string Value) (ts : Time) : Point :=
  mkPoint m tg fl ts.

Inductive Signal : Type := SIGTERM | SIGINT.

Definition signalString (sig : Signal) : string :=
  match sig with
  | SIGTERM => "terminated"
  | SIGINT => "interrupt"
  end.

(** The calls the program makes on its collaborators, in program order. *)
Inductive Event : Type :=
| EvSunriseSunset (latitude longitude : float) (year month day : Z)
| EvWritePoint (p : Point)
| EvSleep (d : Duration)
| EvSignal (sig : Signal)
| EvLog (msg : string)
| EvFlush
| EvClose.

(** Computations that log their calls: a value and the events emitted. *)
Definition Eff (E A : Type) : Type := A * list E.

Definition ret {E A : Type} (a : A) : Eff E A := (a, []).

Definition bind {E A B : Type} (m : Eff E A) (k : A -> Eff E B) : Eff E B :=
  let r := k (fst m) in (fst r, snd m ++ snd r).

Definition emit {E : Type} (e : E) : Eff E unit := (tt, [e]).

Notation "'let*' x ':=' m 'in' k" := (bind m (fun x => k))
  (at level 10, x pattern, k at level 200).

(** ** The daylight evaluator *)

Definition Daylight (sunrise sunset t : Time) : bool :=
  if Before t sunrise || After t sunset then false else true.

(** ** The connection to InfluxDB *)

Record Options : Type := mkOptions {
  optFlushInterval : Z;
  optInsecureSkipVerify : bool
}.

Record Client : Type := mkClient {
  serverURL : string;
  authToken : string;
  options : Options
}.

Record WriteAPI : Type := mkWriteAPI {
  apiOrg : string;
  apiBucket : string
}.

Inductive error : Type := InfluxWriteConfigError.

Definition Error (r : error) : string :=
  match r with
  | InfluxWriteConfigError =>
      "must configure at least one of bucket or database/retention policy"
  end.

Definition nonEmpty (s : string) : bool := negb (String.eqb s "").

Definition setFlushInterval (db : InfluxDB) (v : Z) : InfluxDB :=
  mkInfluxDB (Address db) (Username db) (Password db) (MeasurementPrefix db)
    (Database db) (RetentionPolicy db) (Token db) (Organization db)
    (Bucket db) (SkipVerifySsl db) v.

Definition withInfluxDB (config : Configuration) (db : InfluxDB) : Configuration :=
  mkConfiguration (Latitude config) (Longitude config) (PollInterval config) db.

(** [InfluxConnect] takes a pointer to the configuration and may write to
    it: the configuration it leaves behind is returned first, then Go's
    three results. *)
Definition InfluxConnect (config : Configuration)
    : Configuration * (option Client * option WriteAPI * option error) :=
  let db := influxDB config in
  let auth :=
    if nonEmpty (Token db) then Token db
    else if nonEmpty (Username db) && nonEmpty (Password db)
      then (Username db ++ ":" ++ Password db)%string
    else ""%string in
  let dest :=
    if nonEmpty (Bucket db) then Some (Bucket db)
    else if nonEmpty (Database db) && nonEmpty (RetentionPolicy db)
      then Some (Database db ++ "/" ++ RetentionPolicy db)%string
    else None in
  match dest with
  | None => (config, (None, None, Some InfluxWriteConfigError))
  | Some writeDest =>
      let db' := if FlushInterval db =? 0 then setFlushInterval db 30 else db in
      let opts := mkOptions (mulU 1000 (FlushInterval db')) (SkipVerifySsl db') in
      let client := mkClient (Address db') auth opts in
      let writeAPI := mkWriteAPI (Organization db') writeDest in
      (withInfluxDB config db', (Some client, Some writeAPI, None))
  end.

(** ** The poller *)

(** The three readings of [time.Now()] one cycle takes. *)
Record Readings : Type := mkReadings {
  rdStart : Time;
  rdNow : Time;
  rdEnd : Time
}.

Definition WriteToInflux (config : Configuration) (writeAPI : WriteAPI)
    (daylight : bool) (t : Time) : Eff Event unit :=
  let data := NewPoint "daylight" ∅ {[ "daylight"%string := VBool daylight ]} t in
  emit (EvWritePoint data).

Section WithCalculator.

(** [sunrise.SunriseSunset] of package go-sunrise: latitude, longitude,
    year, month, day to the sunrise and sunset instants. *)
Variable SunriseSunset : float -> float -> Z -> Z -> Z -> Time * Time.

Definition callSunriseSunset (latitude longitude : float) (year month day : Z)
    : Eff Event (Time * Time) :=
  (SunriseSunset latitude longitude year month day,
   [EvSunriseSunset latitude longitude year month day]).

Definition UpdateSunriseSunset (config : Configuration)
    (currentSunrise currentSunset t : Time) : Eff Event (Time * Time) :=
  if (Day currentSunrise =? Day (Add t (-24 * Hour)))
     || (Day currentSunset =? Day (Add t (-24 * Hour)))
  then callSunriseSunset (Latitude config) (Longitude config)
         (Year t) (Month t) (Day t)
  else ret (currentSunrise, currentSunset).

(** The window [main] computes before it starts the loop. *)
Definition initialWindow (config : Configuration) (now : Time)
    : Eff Event (Time * Time) :=
  callSunriseSunset (Latitude config) (Longitude config)
    (Year now) (Month now) (Day now).

(** One pass through the body of the [for] loop. *)
Definition pollCycle (config : Configuration) (writeAPI : WriteAPI)
    (window : Time * Time) (c : Readings) : Eff Event (Time * Time) :=
  let pollStartTime := int32 (Unix (rdStart c)) in
  let now := rdNow c in
  let* w := UpdateSunriseSunset config (fst window) (snd window) now in
  let daylight := Daylight (fst w) (snd w) now in
  let* _ := WriteToInflux config writeAPI daylight now in
  let timeElapsed := sub32 (int32 (Unix (rdEnd c))) pollStartTime in
  let* _ := emit (EvSleep (sub64 (mul64 (PollInterval config) Second)
                                 (mul64 (int64 timeElapsed) Second))) in
  ret w.

(** The loop, run for as many cycles as there are clock readings. *)
Fixpoint pollLoop (config : Configuration) (writeAPI : WriteAPI)
    (window : Time * Time) (cs : list Readings) : Eff Event (Time * Time) :=
  match cs with
  | [] => ret window
  | c :: cs' =>
      let* w := pollCycle config writeAPI window c in
      pollLoop config writeAPI w cs'
  end.

End WithCalculator.

(** ** [main] once the loop is running: signal, flush, exit *)

(** Where the main goroutine stands: blocked on [<-cancelCh] (line 166),
    about to log (167), about to call [writeAPI.Flush()] (170), about to
    run the deferred [writeAPI.Flush()] (123), about to run the deferred
    [influxClient.Close()] (122), returned. *)
Inductive MainPc : Type :=
| AwaitSignal
| LogCaught
| CallFlush
| DeferredFlush
| DeferredClose
| Exited.

Record Process : Type := mkProcess {
  mainPc : MainPc;
  caught : option Signal;
  window : Time * Time;
  trace : list Event
}.

(** What happens next is decided outside the program: a signal arrives,
    the main goroutine runs its next statement, or the poll goroutine
    runs a cycle with the given clock readings. *)
Inductive Choice : Type :=
| Deliver (sig : Signal)
| RunMain
| RunCycle (c : Readings).

Definition caughtMessage (sig : option Signal) : string :=
  match sig with
  | Some g => ("caught signal " ++ signalString g ++ ", flushing data to InfluxDB")%string
  | None => ""%string
  end.

Section Shutdown.

Variable SunriseSunset : float -> float -> Z -> Z -> Z -> Time * Time.
Variable config : Configuration.
Variable writeAPI : WriteAPI.

(** The process when [main] reaches line 166. *)
Definition started (now : Time) : Process :=
  let r := initialWindow SunriseSunset config now in
  mkProcess AwaitSignal None (fst r) (snd r).

Definition advance (p : Process) (pc : MainPc) (e : Event) : Process :=
  mkProcess pc (caught p) (window p) (trace p ++ [e]).

Definition stepWith (ch : Choice) (p : Process) : option Process :=
  match mainPc p, ch with
  | Exited, _ => None
  | AwaitSignal, Deliver sig =>
      Some (mkProcess LogCaught (Some sig) (window p) (trace p ++ [EvSignal sig]))
  | _, Deliver _ => Some p
  | AwaitSignal, RunMain => None
  | LogCaught, RunMain => Some (advance p CallFlush (EvLog (caughtMessage (caught p))))
  | CallFlush, RunMain => Some (advance p DeferredFlush EvFlush)
  | DeferredFlush, RunMain => Some (advance p DeferredClose EvFlush)
  | DeferredClose, RunMain => Some (advance p Exited EvClose)
  | _, RunCycle c =>
      let r := pollCycle SunriseSunset config writeAPI (window p) c in
      Some (mkProcess (mainPc p) (caught p) (fst r) (trace p ++ snd r))
  end.

Fixpoint run (sched : list Choice) (p : Process) : option Process :=
  match sched with
  | [] => Some p
  | ch :: sched' =>
      match stepWith ch p with
      | Some p' => run sched' p'
      | None => None
      end
  end.

End Shutdown.

Definition isFlush (e : Event) : bool :=
  match e with EvFlush => true | _ => false end.

Definition isWritePoint (e : Event) : bool :=
  match e with EvWritePoint _ => true | _ => false end.

Definition isSignal (e : Event) : bool :=
  match e with EvSignal _ => true | _ => false end.

(** The events of the main goroutine from the signal on. *)
Definition isShutdownEvent (e : Event) : bool :=
  match e with
  | EvSignal _ | EvLog _ | EvFlush | EvClose => true
  | _ => false
  end.

(** The events that follow the first one satisfying [f]. *)
Fixpoint after (f : Event -> bool) (tr : list Event) : list Event :=
  match tr with
  | [] => []
  | e :: tr' => if f e then tr' else after f tr'
  end.

Definition count (f : Event -> bool) (tr : list Event) : nat :=
  length (List.filter f tr).

(** ** The InfluxDB v1 program *)

Module Legacy.

Record Configuration : Type := mkConfiguration {
  Latitude : float;
  Longitude : float;
  PollInterval : Duration;
  InfluxDBURL : string;
  InfluxDBPort : Z;
  InfluxDBMeasurement : string;
  InfluxDBDatabase : string;
  InfluxDBRetentionPolicy : string;
  InfluxDBSkipVerifySsl : bool
}.

(** [influxdb.Point] and [influxdb.BatchPoints], with the fields the
    program sets. *)
Record Point : Type := mkPoint {
  Measurement : string;
  Tags : gmap string string;
  Fields : gmap string Value;
  PTime : Time;
  Precision : string
}.

Record BatchPoints : Type := mkBatchPoints {
  Points : list Point;
  Database : string;
  RetentionPolicy : string
}.

Inductive Event : Type :=
| EvSunriseSunset (latitude longitude : float) (year month day : Z)
| EvWrite (b : BatchPoints)
| EvSleep (d : Duration)
| EvInfo (msg : string)
| EvError (msg : string).

Definition Daylight (sunrise sunset t : Time) : bool :=
  if Before t sunrise || After t sunset then false else true.

Section WithCollaborators.

Variable SunriseSunset : float -> float -> Z -> Z -> Z -> Time * Time.

(** [influxConn.Write]: the error it answers a batch with, if any. *)
Variable connWrite : BatchPoints -> option string.

Definition UpdateSunriseSunset (config : Configuration)
    (currentSunrise currentSunset t : Time) : Eff Event (Time * Time) :=
  if (Day currentSunrise =? Day (Add t (-24 * Hour)))
     || (Day currentSunset =? Day (Add t (-24 * Hour)))
  then
    let* _ := emit (EvInfo "fetching new sunrise and sunset values") in
    (SunriseSunset (Latitude config) (Longitude config) (Year t) (Month t) (Day t),
     [EvSunriseSunset (Latitude config) (Longitude config) (Year t) (Month t) (Day t)])
  else ret (currentSunrise, currentSunset).

Definition WriteToInflux (config : Configuration) (daylight : bool) (t : Time)
    : Eff Event (option string) :=
  let data :=
    [ mkPoint (InfluxDBMeasurement config) ∅
        {[ "daylight"%string := VBool daylight ]} t "ns" ] in
  let batchData :=
    mkBatchPoints data (InfluxDBDatabase config) (InfluxDBRetentionPolicy config) in
  let* _ := emit (EvWrite batchData) in
  match connWrite batchData with
  | Some err => ret (Some err)
  | None => ret None
  end.

Definition pollCycle (config : Configuration) (window : Time * Time)
    (c : Readings) : Eff Event (Time * Time) :=
  let pollStartTime := int32 (Unix (rdStart c)) in
  let now := rdNow c in
  let* w := UpdateSunriseSunset config (fst window) (snd window) now in
  let daylight := Daylight (fst w) (snd w) now in
  let* err := WriteToInflux config daylight now in
  let* _ := match err with
            | Some _ => emit (EvError "failed to write daylight data to InfluxDB")
            | None => ret tt
            end in
  let timeElapsed := sub32 (int32 (Unix (rdEnd c))) pollStartTime in
  let* _ := emit (EvSleep (sub64 (mul64 (PollInterval config) Second)
                                 (mul64 (int64 timeElapsed) Second))) in
  ret w.

End WithCollaborators.

End Legacy.

(** ** Readings of a trace *)

(** The points submitted, the durations handed to [time.Sleep], and the
    pauses they cause. *)
Fixpoint submitted (tr : list Event) : list Point :=
  match tr with
  | [] => []
  | EvWritePoint p :: tr' => p :: submitted tr'
  | _ :: tr' => submitted tr'
  end.

Fixpoint requested (tr : list Event) : list Duration :=
  match tr with
  | [] => []
  | EvSleep d :: tr' => d :: requested tr'
  | _ :: tr' => requested tr'
  end.

Definition pauses (tr : list Event) : list Duration := map Sleep (requested tr).

Fixpoint calculatorCalls (tr : list Event) : nat :=
  match tr with
  | [] => 0%nat
  | EvSunriseSunset _ _ _ _ _ :: tr' => S (calculatorCalls tr')
  | _ :: tr' => calculatorCalls tr'
  end.

Module LegacyTrace.

Fixpoint written (tr : list Legacy.Event) : list Legacy.BatchPoints :=
  match tr with
  | [] => []
  | Legacy.EvWrite b :: tr' => b :: written tr'
  | _ :: tr' => written tr'
  end.

Fixpoint requested (tr : list Legacy.Event) : list Duration :=
  match tr with
  | [] => []
  | Legacy.EvSleep d :: tr' => d :: requested tr'
  | _ :: tr' => requested tr'
  end.

End LegacyTrace.

(** Two calls of [UpdateSunriseSunset] in a row with the same [t], the
    second on the window the first returned. *)
Definition refreshTwice (SunriseSunset : float -> float -> Z -> Z -> Z -> Time * Time)
    (config : Configuration) (currentSunrise currentSunset t : Time)
    : Eff Event (Time * Time) :=
  let* w := UpdateSunriseSunset SunriseSunset config currentSunrise currentSunset t in
  UpdateSunriseSunset SunriseSunset config (fst w) (snd w) t.

(** The pause a cycle would take if its elapsed time were the exact
    difference of the two Unix readings. *)
Definition exactPause (pollInterval : Duration) (c : Readings) : Duration :=
  Z.max 0 ((pollInterval - (Unix (rdEnd c) - Unix (rdStart c))) * Second).

(** How far the main goroutine is into its shutdown, and the events it
    has produced by then: the signal, the log line, the call of [Flush],
    the deferred [Flush], the deferred [Close]. *)
Definition stage (pc : MainPc) : nat :=
  match pc with
  | AwaitSignal => 0
  | LogCaught => 1
  | CallFlush => 2
  | DeferredFlush => 3
  | DeferredClose => 4
  | Exited => 5
  end.

Definition shutdownEvents (sig : Signal) : list Event :=
  [EvSignal sig; EvLog (caughtMessage (Some sig)); EvFlush; EvFlush; EvClose].

Definition shutdownInv (p : Process) : Prop :=
  match caught p with
  | None => mainPc p = AwaitSignal /\ List.filter isShutdownEvent (trace p) = []
  | Some sig =>
      mainPc p <> AwaitSignal /\
      List.filter isShutdownEvent (trace p) = firstn (stage (mainPc p)) (shutdownEvents sig)
  end.

(** ** Concrete inputs *)

Module Sample.

(** Mountain Daylight Time and Australian Eastern Standard Time. *)
Definition mdt : Z := -6 * 3600.
Definition aest : Z := 10 * 3600.

Definition influx : InfluxDB :=
  mkInfluxDB "https://127.0.0.1:8086" "myuser" "mypass" "prefix_" "mydb"
    "autogen" "mytoken" "myorg" "mybucket" false 30.

Definition boulder : Configuration := mkConfiguration 40%float (-105)%float 60 influx.
Definition sydney : Configuration := mkConfiguration (-34)%float 151%float 60 influx.

Definition api : WriteAPI := mkWriteAPI "myorg" "mybucket".

Definition sunrise0630 : Time := Date 2021 4 20 6 30 0 mdt.
Definition sunset1945 : Time := Date 2021 4 20 19 45 0 mdt.
Definition at0644 : Time := Date 2021 4 20 6 44 0 mdt.
Definition at0645 : Time := Date 2021 4 20 6 45 0 mdt.
Definition at1200 : Time := Date 2021 4 20 12 0 0 mdt.
Definition at1916 : Time := Date 2021 4 20 19 16 0 mdt.
Definition at2000 : Time := Date 2021 4 20 20 0 0 mdt.
Definition nextDay0005 : Time := Date 2021 4 21 0 5 0 mdt.

(** A calculator that answers in the caller's zone, on the date asked. *)
Definition localCalculator (offset : Z) : float -> float -> Z -> Z -> Z -> Time * Time :=
  fun _ _ y m d => (Date y m d 6 30 0 offset, Date y m d 19 45 0 offset).

(** A calculator that answers in UTC for a place ten hours east of
    Greenwich: the sun rises there at 20:00 UTC of the day before. *)
Definition utcCalculator : float -> float -> Z -> Z -> Z -> Time * Time :=
  fun _ _ y m d =>
    (Add (Date y m d 0 0 0 0) (-4 * Hour), Add (Date y m d 0 0 0 0) (8 * Hour)).

Definition sydneyMorning : Time := Date 2024 3 20 8 0 0 aest.
Definition sydneyCachedSunrise : Time := Add (Date 2024 3 19 0 0 0 0) (-4 * Hour).
Definition sydneyCachedSunset : Time := Add (Date 2024 3 19 0 0 0 0) (8 * Hour).

(** Readings of a cycle that starts at Unix second [s] and ends [e]
    seconds later. *)
Definition readings (s e : Z) : Readings :=
  mkReadings (mkTime (s * Second) UTC) (mkTime (s * Second) UTC)
             (mkTime ((s + e) * Second) UTC).

(** A signal that arrives between two cycles, and a cycle that the
    poll goroutine still runs between the two flushes. *)
Definition schedule : list Choice :=
  [RunCycle (readings 1618920000 5); Deliver SIGTERM; RunMain; RunMain;
   RunCycle (readings 1618920060 5); RunMain; RunMain].

Definition startedAt : Time := mkTime (1618919999 * Second) UTC.

Definition shutdownRun : option Process :=
  run (localCalculator 0) boulder api schedule
    (started (localCalculator 0) boulder startedAt).

Definition finalProcess : Process :=
  match shutdownRun with
  | Some p => p
  | None => started (localCalculator 0) boulder startedAt
  end.

Definition legacyConfig (m : string) : Legacy.Configuration :=
  Legacy.mkConfiguration 40%float (-105)%float 60 "http://127.0.0.1" 8086 m
    "mydb" "autogen" false.

End Sample.

(** ** Further readings of traces and schedules *)

Definition isClose (e : Event) : bool :=
  match e with EvClose => true | _ => false end.

Definition isRunCycle (ch : Choice) : bool :=
  match ch with RunCycle _ => true | _ => false end.

Fixpoint sleeps (tr : list Event) : nat :=
  match tr with
  | [] => 0%nat
  | EvSleep _ :: tr' => S (sleeps tr')
  | _ :: tr' => sleeps tr'
  end.

Module LegacyLog.

Fixpoint errors (tr : list Legacy.Event) : nat :=
  match tr with
  | [] => 0%nat
  | Legacy.EvError _ :: tr' => S (errors tr')
  | _ :: tr' => errors tr'
  end.

Fixpoint infos (tr : list Legacy.Event) : nat :=
  match tr with
  | [] => 0%nat
  | Legacy.EvInfo _ :: tr' => S (infos tr')
  | _ :: tr' => infos tr'
  end.

Fixpoint calculatorCalls (tr : list Legacy.Event) : nat :=
  match tr with
  | [] => 0%nat
  | Legacy.EvSunriseSunset _ _ _ _ _ :: tr' => S (calculatorCalls tr')
  | _ :: tr' => calculatorCalls tr'
  end.

End LegacyLog.

(** ** The days a run of the loop passes through *)

(** The local day number of the last reading, [d] when there is none. *)
Fixpoint lastDay (d : Z) (cs : list Readings) : Z :=
  match cs with
  | [] => d
  | c :: cs' => lastDay (localDays (rdNow c)) cs'
  end.


(** [t], read in its own location, is an instant whose second count
    [Time.abs] does not wrap, a day or more after the absolute zero. *)
Definition calendarRange (t : Time) : Prop :=
  86400 <= Unix t + lookup (loc t) (Unix t) + unixToAbsolute < 2 ^ 64.

(** The zone of [t] had the same offset 24 hours before [t]. *)
Definition zoneSteady (t : Time) : Prop :=
  lookup (loc t) (Unix t - 86400) = lookup (loc t) (Unix t).

(** The loop is polled at least once a day, at instants of steady zone
    within the calendar's range, with a calculator whose sunrise for the
    date of each poll lies, read in the sunrise's own location, on the
    local day of the poll, and whose sunset lies on that day or the
    next. This is the shape of answers given in UTC for a place west of
    Greenwich, and of answers given in the zone of the poll. *)
Fixpoint polledDaily (SunriseSunset : float -> float -> Z -> Z -> Z -> Time * Time)
    (config : Configuration) (d : Z) (cs : list Readings) : Prop :=
  match cs with
  | [] => True
  | c :: cs' =>
      let t := rdNow c in
      let fresh := SunriseSunset (Latitude config) (Longitude config)
                     (Year t) (Month t) (Day t) in
      calendarRange t /\
      zoneSteady t /\
      0 <= localDays t - d <= 1 /\
      localDays (fst fresh) = localDays t /\
      0 <= localDays (snd fresh) - localDays t <= 1 /\
      polledDaily SunriseSunset config (localDays t) cs'
  end.


(** ** The day of the month within the 400-year cycle *)

Definition daysPerEra : Z := 146097.

(** The day-of-month part of [civil], as a function of the day of the era. *)
Definition dayOfDoe (doe : Z) : Z :=
  let yoe := (doe - doe / 1460 + doe / 36524 - doe / 146096) / 365 in
  let doy := doe - (365 * yoe + yoe / 4 - yoe / 100) in
  let mp := (5 * doy + 2) / 153 in
  doy - (153 * mp + 2) / 5 + 1.

Definition gaps27 : list Z :=
  [1; 2; 3; 4; 5; 6; 7; 8; 9; 10; 11; 12; 13; 14; 15; 16; 17; 18; 19; 20;
   21; 22; 23; 24; 25; 26; 27].

(** The parts of [dayOfDoe]: the year of the era (years start on March 1),
    the day of the era that year starts on, and the day of the month as
    a function of the day of that year. *)
Definition yearOfDoe (doe : Z) : Z :=
  (doe - doe / 1460 + doe / 36524 - doe / 146096) / 365.

Definition yearStart (y : Z) : Z := 365 * y + y / 4 - y / 100.

Definition dayOfDoy (doy : Z) : Z :=
  doy - (153 * ((5 * doy + 2) / 153) + 2) / 5 + 1.

Fixpoint zrange (lo : Z) (n : nat) : list Z :=
  match n with
  | O => []
  | S n' => lo :: zrange (lo + 1) n'
  end.

(** Day [doy] of a year and the day [g] days before it, which for
    [g > doy] is in the year before, of 365 or 366 days, have different
    days of the month. *)
Definition daysDiffer (doy g : Z) : bool :=
  if g <=? doy then negb (dayOfDoy doy =? dayOfDoy (doy - g))
  else negb (dayOfDoy doy =? dayOfDoy (365 + doy - g))
       && negb (dayOfDoy doy =? dayOfDoy (366 + doy - g)).

Definition yearTable : bool :=
  forallb (fun doy => forallb (daysDiffer doy) gaps27) (zrange 0 366).

(** ** More concrete inputs *)

Module Sample2.

Definition twoDays : list Readings :=
  [mkReadings Sample.at1200 Sample.at1200 Sample.at1200;
   mkReadings Sample.at2000 Sample.at2000 Sample.at2000;
   mkReadings Sample.nextDay0005 Sample.nextDay0005 Sample.nextDay0005].

Definition april20 : Z := localDays Sample.at1200.

Definition threeCycles : list Choice :=
  [RunCycle (Sample.readings 1618920000 5);
   RunCycle (Sample.readings 1618920060 5);
   RunCycle (Sample.readings 1618920120 5)].

Definition tokenAndUser : Configuration :=
  mkConfiguration 40%float (-105)%float 60
    (mkInfluxDB "https://127.0.0.1:8086" "myuser" "mypass" "" "mydb" "autogen"
       "mytoken" "myorg" "mybucket" true 0).

Definition userOnly : Configuration :=
  mkConfiguration 40%float (-105)%float 60
    (mkInfluxDB "https://127.0.0.1:8086" "myuser" "mypass" "" "mydb" "autogen"
       "" "" "" false 15).

Definition noPassword : Configuration :=
  mkConfiguration 40%float (-105)%float 60
    (mkInfluxDB "https://127.0.0.1:8086" "myuser" "" "" "mydb" "autogen"
       "" "" "" false 15).







(** A calculator that answers in UTC for a place six hours west of
    Greenwich: sunrise at 12:30 UTC, sunset at 01:45 UTC of the next
    day. *)
Definition westCalculator : float -> float -> Z -> Z -> Z -> Time * Time :=
  fun _ _ y m d =>
    (Add (Date y m d 0 0 0 0) (12 * Hour + 30 * Minute),
     Add (Date y m d 0 0 0 0) (25 * Hour + 45 * Minute)).

Definition april20Window : Time * Time := westCalculator 40%float (-105)%float 2021 4 20.


Definition march20Window : Time * Time :=
  Sample.utcCalculator (-34)%float 151%float 2024 3 20.

(** A cycle during which the wall clock is set back by [back] seconds. *)
Definition steppedBack (s back : Z) : Readings :=
  mkReadings (mkTime (s * Second) UTC) (mkTime (s * Second) UTC)
             (mkTime ((s - back) * Second) UTC).

End Sample2.

(** ** Arithmetic of the wrapped integers *)

Lemma int32_small (z : Z) : inInt32 z -> int32 z = z.
Proof.
  unfold inInt32, int32, wrapS. intros H.
  change (2 ^ (32 - 1)) with 2147483648 in *. change (2 ^ 31) with 2147483648 in *.
  change (2 ^ 32) with 4294967296.
  rewrite Z.mod_small; lia.
Qed.

Lemma int64_small (z : Z) : inInt64 z -> int64 z = z.
Proof.
  unfold inInt64, int64, wrapS. intros H.
  change (2 ^ (64 - 1)) with 9223372036854775808 in *.
  change (2 ^ 63) with 9223372036854775808 in *.
  change (2 ^ 64) with 18446744073709551616.
  rewrite Z.mod_small; lia.
Qed.

Lemma int32_range (z : Z) : inInt32 (int32 z).
Proof.
  unfold inInt32, int32, wrapS.
  change (2 ^ (32 - 1)) with 2147483648. change (2 ^ 31) with 2147483648.
  change (2 ^ 32) with 4294967296.
  pose proof (Z.mod_pos_bound (z + 2147483648) 4294967296). lia.
Qed.

Lemma int64_range (z : Z) : inInt64 (int64 z).
Proof.
  unfold inInt64, int64, wrapS.
  change (2 ^ (64 - 1)) with 9223372036854775808.
  change (2 ^ 63) with 9223372036854775808.
  change (2 ^ 64) with 18446744073709551616.
  pose proof (Z.mod_pos_bound (z + 9223372036854775808) 18446744073709551616). lia.
Qed.

(** Subtracting two converted values is converting the difference. *)
Lemma sub32_int32 (a b : Z) : sub32 (int32 a) (int32 b) = int32 (a - b).
Proof.
  unfold sub32, int32, wrapS.
  change (2 ^ (32 - 1)) with 2147483648. change (2 ^ 32) with 4294967296.
  f_equal.
  replace ((a + 2147483648) mod 4294967296 - 2147483648 -
           ((b + 2147483648) mod 4294967296 - 2147483648) + 2147483648)
    with ((a + 2147483648) mod 4294967296 - (b + 2147483648) mod 4294967296 + 2147483648)
    by lia.
  rewrite Zplus_mod, <- Zminus_mod, <- Zplus_mod.
  f_equal. lia.
Qed.

(** ** The daylight evaluator: first checks *)

Lemma Daylight_spec (sunrise sunset t : Time) :
  Daylight sunrise sunset t = true <->
  unixNano sunrise <= unixNano t <= unixNano sunset.
Proof.
  unfold Daylight, Before, After.
  destruct (Z.ltb_spec (unixNano t) (unixNano sunrise));
    destruct (Z.ltb_spec (unixNano sunset) (unixNano t)); simpl;
    split; intros; try discriminate; try reflexivity; lia.
Qed.

Example Daylight_noon : Daylight Sample.sunrise0630 Sample.sunset1945 Sample.at1200 = true.
Proof. reflexivity. Qed.

Example Daylight_evening : Daylight Sample.sunrise0630 Sample.sunset1945 Sample.at2000 = false.
Proof. reflexivity. Qed.

(** ** The daylight evaluator *)

(** C1. The evaluator has no offset to apply: [Configuration] carries no
    time offset and [Daylight] compares the timestamp with the sunrise and
    the sunset themselves. With sunrise 06:30 and sunset 19:45 the
    evaluation at 06:44 is already true, and it is still true at 19:16;
    an offset of 30 minutes would make both false. *)
Theorem Daylight_without_offset :
  Daylight Sample.sunrise0630 Sample.sunset1945 Sample.at0644 = true /\
  Daylight Sample.sunrise0630 Sample.sunset1945 Sample.at0645 = true /\
  Daylight Sample.sunrise0630 Sample.sunset1945 Sample.at1916 = true.
Proof. repeat split; reflexivity. Qed.

(** C4. [Daylight] is a total function to [bool]; it answers true exactly
    when the timestamp lies in the closed interval from sunrise to sunset,
    both bounds included, and when the sunrise is after the sunset it
    answers false for every timestamp. *)
Theorem Daylight_closed_interval (sunrise sunset t : Time) :
  (Daylight sunrise sunset t = true <->
     unixNano sunrise <= unixNano t <= unixNano sunset) /\
  (unixNano sunset < unixNano sunrise -> Daylight sunrise sunset t = false).
Proof.
  split; [apply Daylight_spec |].
  intros Hempty.
  destruct (Daylight sunrise sunset t) eqn:E; [| reflexivity].
  apply Daylight_spec in E. lia.
Qed.

Lemma Daylight_closed_interval_witness :
  Daylight Sample.sunrise0630 Sample.sunset1945 Sample.sunrise0630 = true /\
  Daylight Sample.sunrise0630 Sample.sunset1945 Sample.sunset1945 = true /\
  Daylight Sample.sunset1945 Sample.sunrise0630 Sample.at1200 = false.
Proof.
  split; [| split].
  - apply (proj1 (Daylight_closed_interval
                    Sample.sunrise0630 Sample.sunset1945 Sample.sunrise0630)).
    vm_compute. split; discriminate.
  - apply (proj1 (Daylight_closed_interval
                    Sample.sunrise0630 Sample.sunset1945 Sample.sunset1945)).
    vm_compute. split; discriminate.
  - apply (proj2 (Daylight_closed_interval
                    Sample.sunset1945 Sample.sunrise0630 Sample.at1200)).
    vm_compute. reflexivity.
Defined.

(** C7. For a fixed window the timestamps that evaluate to true form one
    contiguous stretch: a timestamp between two daylight timestamps is a
    daylight timestamp, so as time grows the answer goes from false to
    true and back to false at most once. *)
Theorem Daylight_contiguous (sunrise sunset t1 t2 t3 : Time) :
  unixNano t1 <= unixNano t2 <= unixNano t3 ->
  Daylight sunrise sunset t1 = true ->
  Daylight sunrise sunset t3 = true ->
  Daylight sunrise sunset t2 = true.
Proof.
  intros Hord H1 H3.
  apply Daylight_spec in H1. apply Daylight_spec in H3.
  apply Daylight_spec. lia.
Qed.

Lemma Daylight_contiguous_witness :
  Daylight Sample.sunrise0630 Sample.sunset1945 Sample.at1200 = true.
Proof.
  apply (Daylight_contiguous Sample.sunrise0630 Sample.sunset1945
           Sample.at0645 Sample.at1200 Sample.at1916).
  - vm_compute. split; discriminate.
  - vm_compute. reflexivity.
  - vm_compute. reflexivity.
Defined.

(** ** The sunrise/sunset cache *)

Section Cache.

Variable SunriseSunset : float -> float -> Z -> Z -> Z -> Time * Time.

Lemma UpdateSunriseSunset_stale (config : Configuration) (sr ss t : Time) :
  Day sr = Day (Add t (-24 * Hour)) \/ Day ss = Day (Add t (-24 * Hour)) ->
  UpdateSunriseSunset SunriseSunset config sr ss t =
    callSunriseSunset SunriseSunset (Latitude config) (Longitude config)
      (Year t) (Month t) (Day t).
Proof.
  intros H. unfold UpdateSunriseSunset.
  destruct (Z.eqb_spec (Day sr) (Day (Add t (-24 * Hour))));
    destruct (Z.eqb_spec (Day ss) (Day (Add t (-24 * Hour))));
    simpl; try reflexivity.
  destruct H; contradiction.
Qed.

Lemma UpdateSunriseSunset_fresh (config : Configuration) (sr ss t : Time) :
  Day sr <> Day (Add t (-24 * Hour)) ->
  Day ss <> Day (Add t (-24 * Hour)) ->
  UpdateSunriseSunset SunriseSunset config sr ss t = ((sr, ss), []).
Proof.
  intros H1 H2. unfold UpdateSunriseSunset.
  destruct (Z.eqb_spec (Day sr) (Day (Add t (-24 * Hour)))); [contradiction |].
  destruct (Z.eqb_spec (Day ss) (Day (Add t (-24 * Hour)))); [contradiction |].
  reflexivity.
Qed.


(** A condition under which a second call is quiet: when the
    calculator's sunrise and sunset for the date of [t] both have a day
    of the month other than that of [t - 24h], a second call of
    [UpdateSunriseSunset] with the same [t], on the window the first
    call returned, returns that window and calls the calculator no
    more. *)
Theorem UpdateSunriseSunset_second_call_quiet
    (config : Configuration) (sr ss t : Time) :
  let fresh := SunriseSunset (Latitude config) (Longitude config)
                 (Year t) (Month t) (Day t) in
  Day (fst fresh) <> Day (Add t (-24 * Hour)) ->
  Day (snd fresh) <> Day (Add t (-24 * Hour)) ->
  let first := UpdateSunriseSunset SunriseSunset config sr ss t in
  UpdateSunriseSunset SunriseSunset config (fst (fst first)) (snd (fst first)) t
    = (fst first, []) /\
  (calculatorCalls (snd (refreshTwice SunriseSunset config sr ss t)) <= 1)%nat.
Proof.
  intros fresh Hsr Hss first.
  assert (Hquiet :
    UpdateSunriseSunset SunriseSunset config (fst (fst first)) (snd (fst first)) t
      = (fst first, [])).
  { subst first. unfold UpdateSunriseSunset at 2 3 4.
    destruct ((Day sr =? Day (Add t (-24 * Hour)))
              || (Day ss =? Day (Add t (-24 * Hour)))) eqn:E.
    - simpl. fold fresh.
      rewrite (UpdateSunriseSunset_fresh config (fst fresh) (snd fresh) t Hsr Hss).
      destruct fresh; reflexivity.
    - simpl. apply orb_false_iff in E. destruct E as [E1 E2].
      apply UpdateSunriseSunset_fresh; apply Z.eqb_neq; assumption. }
  split; [exact Hquiet |].
  unfold refreshTwice, bind. fold first. rewrite Hquiet. simpl.
  rewrite app_nil_r. subst first. unfold UpdateSunriseSunset.
  destruct ((Day sr =? Day (Add t (-24 * Hour)))
            || (Day ss =? Day (Add t (-24 * Hour)))); simpl; lia.
Qed.

End Cache.



Lemma UpdateSunriseSunset_second_call_quiet_witness :
  (calculatorCalls
     (snd (refreshTwice (Sample.localCalculator Sample.mdt) Sample.boulder
             Sample.sunrise0630 Sample.sunset1945 Sample.nextDay0005)) <= 1)%nat.
Proof.
  apply (UpdateSunriseSunset_second_call_quiet
           (Sample.localCalculator Sample.mdt) Sample.boulder
           Sample.sunrise0630 Sample.sunset1945 Sample.nextDay0005).
  - vm_compute. discriminate.
  - vm_compute. discriminate.
Defined.

(** C5. The code does not keep the second call quiet. With a calculator
    that answers in UTC for a place east of Greenwich, as go-sunrise
    does, the sunrise computed for 20 March falls on 19 March, the day
    of the month of [t - 24h]: the window just refreshed is stale again,
    and the second call with the same [t] asks the calculator a second
    time. *)
Lemma UpdateSunriseSunset_second_call_repeats :
  snd (refreshTwice Sample.utcCalculator Sample.sydney
         Sample.sydneyCachedSunrise Sample.sydneyCachedSunset Sample.sydneyMorning) =
    [EvSunriseSunset (-34)%float 151%float 2024 3 20;
     EvSunriseSunset (-34)%float 151%float 2024 3 20] /\
  ~ (forall calc config sr ss t,
       (calculatorCalls (snd (refreshTwice calc config sr ss t)) <= 1)%nat).
Proof.
  split; [vm_compute; reflexivity |].
  intros H.
  specialize (H Sample.utcCalculator Sample.sydney
                Sample.sydneyCachedSunrise Sample.sydneyCachedSunset Sample.sydneyMorning).
  vm_compute in H. lia.
Qed.

(** ** The trace of one cycle *)

Lemma requested_app (tr1 tr2 : list Event) :
  requested (tr1 ++ tr2) = requested tr1 ++ requested tr2.
Proof.
  induction tr1 as [| e tr1 IH]; [reflexivity |].
  destruct e; simpl; rewrite IH; reflexivity.
Qed.

Lemma submitted_app (tr1 tr2 : list Event) :
  submitted (tr1 ++ tr2) = submitted tr1 ++ submitted tr2.
Proof.
  induction tr1 as [| e tr1 IH]; [reflexivity |].
  destruct e; simpl; rewrite IH; reflexivity.
Qed.

Section CycleTrace.

Variable SunriseSunset : float -> float -> Z -> Z -> Z -> Time * Time.
Variable config : Configuration.
Variable writeAPI : WriteAPI.

(** [UpdateSunriseSunset] neither submits nor sleeps. *)
Lemma UpdateSunriseSunset_silent (sr ss t : Time) :
  requested (snd (UpdateSunriseSunset SunriseSunset config sr ss t)) = [] /\
  submitted (snd (UpdateSunriseSunset SunriseSunset config sr ss t)) = [].
Proof.
  unfold UpdateSunriseSunset.
  destruct ((Day sr =? Day (Add t (-24 * Hour)))
            || (Day ss =? Day (Add t (-24 * Hour)))); split; reflexivity.
Qed.

(** A cycle is: the refresh, one submission, one sleep. *)
Lemma pollCycle_trace (w : Time * Time) (c : Readings) :
  let refreshed := UpdateSunriseSunset SunriseSunset config (fst w) (snd w) (rdNow c) in
  fst (pollCycle SunriseSunset config writeAPI w c) = fst refreshed /\
  snd (pollCycle SunriseSunset config writeAPI w c) =
    snd refreshed ++
    [EvWritePoint
       (NewPoint "daylight" ∅
          {[ "daylight"%string :=
               VBool (Daylight (fst (fst refreshed)) (snd (fst refreshed)) (rdNow c)) ]}
          (rdNow c));
     EvSleep
       (sub64 (mul64 (PollInterval config) Second)
          (mul64 (int64 (sub32 (int32 (Unix (rdEnd c))) (int32 (Unix (rdStart c)))))
             Second))].
Proof.
  intros refreshed. unfold pollCycle, bind, WriteToInflux, emit, ret.
  fold refreshed. simpl. split; reflexivity.
Qed.

Lemma pollCycle_requested (w : Time * Time) (c : Readings) :
  requested (snd (pollCycle SunriseSunset config writeAPI w c)) =
    [sub64 (mul64 (PollInterval config) Second)
       (mul64 (int32 (Unix (rdEnd c) - Unix (rdStart c))) Second)].
Proof.
  destruct (pollCycle_trace w c) as [_ ->].
  rewrite requested_app.
  destruct (UpdateSunriseSunset_silent (fst w) (snd w) (rdNow c)) as [-> _].
  simpl. rewrite sub32_int32.
  rewrite (int64_small (int32 _)); [reflexivity |].
  pose proof (int32_range (Unix (rdEnd c) - Unix (rdStart c))) as H.
  unfold inInt32, inInt64 in *.
  change (2 ^ 31) with 2147483648 in H.
  change (2 ^ 63) with 9223372036854775808. lia.
Qed.

End CycleTrace.

Section LegacyCycleTrace.

Variable SunriseSunset : float -> float -> Z -> Z -> Z -> Time * Time.
Variable connWrite : Legacy.BatchPoints -> option string.
Variable config : Legacy.Configuration.

Lemma Legacy_requested_app (tr1 tr2 : list Legacy.Event) :
  LegacyTrace.requested (tr1 ++ tr2) =
    LegacyTrace.requested tr1 ++ LegacyTrace.requested tr2.
Proof.
  induction tr1 as [| e tr1 IH]; [reflexivity |].
  destruct e; simpl; rewrite IH; reflexivity.
Qed.

Lemma Legacy_written_app (tr1 tr2 : list Legacy.Event) :
  LegacyTrace.written (tr1 ++ tr2) =
    LegacyTrace.written tr1 ++ LegacyTrace.written tr2.
Proof.
  induction tr1 as [| e tr1 IH]; [reflexivity |].
  destruct e; simpl; rewrite IH; reflexivity.
Qed.

Lemma Legacy_UpdateSunriseSunset_silent (sr ss t : Time) :
  LegacyTrace.requested
    (snd (Legacy.UpdateSunriseSunset SunriseSunset config sr ss t)) = [] /\
  LegacyTrace.written
    (snd (Legacy.UpdateSunriseSunset SunriseSunset config sr ss t)) = [].
Proof.
  unfold Legacy.UpdateSunriseSunset.
  destruct ((Day sr =? Day (Add t (-24 * Hour)))
            || (Day ss =? Day (Add t (-24 * Hour)))); split; reflexivity.
Qed.

Lemma Legacy_pollCycle_trace (w : Time * Time) (c : Readings) :
  let refreshed :=
    Legacy.UpdateSunriseSunset SunriseSunset config (fst w) (snd w) (rdNow c) in
  let batch :=
    Legacy.mkBatchPoints
      [Legacy.mkPoint (Legacy.InfluxDBMeasurement config) ∅
         {[ "daylight"%string :=
              VBool (Legacy.Daylight (fst (fst refreshed)) (snd (fst refreshed))
                       (rdNow c)) ]}
         (rdNow c) "ns"]
      (Legacy.InfluxDBDatabase config) (Legacy.InfluxDBRetentionPolicy config) in
  snd (Legacy.pollCycle SunriseSunset connWrite config w c) =
    snd refreshed ++
    [Legacy.EvWrite batch] ++
    match connWrite batch with
    | Some _ => [Legacy.EvError "failed to write daylight data to InfluxDB"]
    | None => []
    end ++
    [Legacy.EvSleep
       (sub64 (mul64 (Legacy.PollInterval config) Second)
          (mul64 (int64 (sub32 (int32 (Unix (rdEnd c))) (int32 (Unix (rdStart c)))))
             Second))].
Proof.
  intros refreshed batch.
  unfold Legacy.pollCycle, Legacy.WriteToInflux, bind, emit, ret.
  fold refreshed. cbn [fst snd]. fold batch.
  destruct (connWrite batch); cbn [fst snd app]; rewrite ?app_nil_r; reflexivity.
Qed.

Lemma Legacy_pollCycle_requested (w : Time * Time) (c : Readings) :
  LegacyTrace.requested (snd (Legacy.pollCycle SunriseSunset connWrite config w c)) =
    [sub64 (mul64 (Legacy.PollInterval config) Second)
       (mul64 (int32 (Unix (rdEnd c) - Unix (rdStart c))) Second)].
Proof.
  rewrite Legacy_pollCycle_trace.
  rewrite !Legacy_requested_app.
  destruct (Legacy_UpdateSunriseSunset_silent (fst w) (snd w) (rdNow c)) as [-> _].
  match goal with |- context [connWrite ?b] => destruct (connWrite b) end;
    simpl; rewrite sub32_int32;
    (rewrite (int64_small (int32 _)); [reflexivity |]);
    pose proof (int32_range (Unix (rdEnd c) - Unix (rdStart c))) as H;
    unfold inInt32, inInt64 in *;
    change (2 ^ 31) with 2147483648 in H;
    change (2 ^ 63) with 9223372036854775808; lia.
Qed.

End LegacyCycleTrace.

(** ** The poll cadence *)

Lemma pollLoop_submits_each_cycle
    (SunriseSunset : float -> float -> Z -> Z -> Z -> Time * Time)
    (config : Configuration) (writeAPI : WriteAPI)
    (cs : list Readings) (w : Time * Time) :
  length (submitted (snd (pollLoop SunriseSunset config writeAPI w cs))) = length cs.
Proof.
  revert w. induction cs as [| c cs IH]; intros w; [reflexivity |].
  cbn [pollLoop]. unfold bind. cbn [snd].
  rewrite submitted_app, length_app, IH.
  destruct (pollCycle_trace SunriseSunset config writeAPI w c) as [_ ->].
  rewrite submitted_app.
  destruct (UpdateSunriseSunset_silent SunriseSunset config (fst w) (snd w) (rdNow c))
    as [_ ->].
  reflexivity.
Qed.







(** C10, as amended. In both programs the elapsed time of a cycle is the
    [int32] reduction of the difference of the two Unix readings: whole
    seconds, and 0 for a cycle that ends in the clock second it started
    in, which then asks for the full poll interval. The reduction of each
    reading cancels in the subtraction, so whenever the true difference
    fits [int32] the elapsed time is that difference and the requested
    sleep is the one computed from it, however large the readings are. *)
Theorem timeElapsed_is_reduced_difference
    (SunriseSunset : float -> float -> Z -> Z -> Z -> Time * Time)
    (connWrite : Legacy.BatchPoints -> option string)
    (config : Configuration) (legacy : Legacy.Configuration) (writeAPI : WriteAPI)
    (w : Time * Time) (c : Readings) :
  let e := Unix (rdEnd c) - Unix (rdStart c) in
  let asked := requested (snd (pollCycle SunriseSunset config writeAPI w c)) in
  let askedLegacy :=
    LegacyTrace.requested (snd (Legacy.pollCycle SunriseSunset connWrite legacy w c)) in
  (asked = [sub64 (mul64 (PollInterval config) Second) (mul64 (int32 e) Second)] /\
   askedLegacy =
     [sub64 (mul64 (Legacy.PollInterval legacy) Second) (mul64 (int32 e) Second)]) /\
  (e = 0 ->
     asked = [mul64 (PollInterval config) Second] /\
     askedLegacy = [mul64 (Legacy.PollInterval legacy) Second]) /\
  (inInt32 e ->
     asked = [sub64 (mul64 (PollInterval config) Second) (mul64 e Second)] /\
     askedLegacy = [sub64 (mul64 (Legacy.PollInterval legacy) Second) (mul64 e Second)]).
Proof.
  intros e asked askedLegacy. subst asked askedLegacy.
  rewrite pollCycle_requested, Legacy_pollCycle_requested. fold e.
  split; [split; reflexivity |]. split.
  - intros ->. change (int32 0) with 0. change (mul64 0 Second) with 0.
    unfold sub64. rewrite !Z.sub_0_r.
    rewrite !(int64_small (mul64 _ _)) by (unfold mul64; apply int64_range).
    split; reflexivity.
  - intros H. rewrite (int32_small e H). split; reflexivity.
Qed.

Lemma timeElapsed_is_reduced_difference_witness :
  requested (snd (pollCycle (Sample.localCalculator 0) Sample.boulder Sample.api
                    (Sample.sunrise0630, Sample.sunset1945)
                    (Sample.readings (2 ^ 31 + 10) 0))) = [60 * Second] /\
  requested (snd (pollCycle (Sample.localCalculator 0) Sample.boulder Sample.api
                    (Sample.sunrise0630, Sample.sunset1945)
                    (Sample.readings (2 ^ 31 - 2) 5))) = [55 * Second].
Proof.
  split.
  - refine (eq_trans (proj1 (proj1 (proj2 (timeElapsed_is_reduced_difference
             (Sample.localCalculator 0) (fun _ => None) Sample.boulder
             (Sample.legacyConfig "daylight") Sample.api
             (Sample.sunrise0630, Sample.sunset1945)
             (Sample.readings (2 ^ 31 + 10) 0))) _)) _).
    + vm_compute. reflexivity.
    + vm_compute. reflexivity.
  - refine (eq_trans (proj1 (proj2 (proj2 (timeElapsed_is_reduced_difference
             (Sample.localCalculator 0) (fun _ => None) Sample.boulder
             (Sample.legacyConfig "daylight") Sample.api
             (Sample.sunrise0630, Sample.sunset1945)
             (Sample.readings (2 ^ 31 - 2) 5))) _)) _).
    + vm_compute. split; [discriminate | reflexivity].
    + vm_compute. reflexivity.
Defined.

(** C10, as stated, fails in its last part: past 2^31 seconds both
    conversions wrap, yet a 5-second cycle with a 60-second interval
    still pauses for 55 seconds, the pause of the exact elapsed time. *)
Lemma sleep_not_corrupted_past_2038 :
  let c := Sample.readings (2 ^ 31 + 10) 5 in
  (2 ^ 31 <= Unix (rdStart c) /\ int32 (Unix (rdStart c)) <> Unix (rdStart c) /\
   int32 (Unix (rdEnd c)) <> Unix (rdEnd c)) /\
  pauses (snd (pollCycle (Sample.localCalculator 0) Sample.boulder Sample.api
                 (Sample.sunrise0630, Sample.sunset1945) c)) = [55 * Second] /\
  ~ (forall calc config writeAPI w c,
       2 ^ 31 <= Unix (rdStart c) -> 2 ^ 31 <= Unix (rdEnd c) ->
       pauses (snd (pollCycle calc config writeAPI w c))
         <> [exactPause (PollInterval config) c]).
Proof.
  intros c.
  assert (Hp : pauses (snd (pollCycle (Sample.localCalculator 0) Sample.boulder
                              Sample.api (Sample.sunrise0630, Sample.sunset1945) c))
               = [55 * Second]).
  { unfold pauses. rewrite pollCycle_requested. vm_compute. reflexivity. }
  split; [| split; [exact Hp |]].
  - vm_compute. repeat split; discriminate.
  - intros H.
    apply (H (Sample.localCalculator 0) Sample.boulder Sample.api
             (Sample.sunrise0630, Sample.sunset1945) c).
    + vm_compute. discriminate.
    + vm_compute. discriminate.
    + rewrite Hp. vm_compute. reflexivity.
Qed.

(** ** The submitted points *)

(** C8, as amended. A cycle of the current program submits exactly one
    point: measurement "daylight", no tags, the single field "daylight"
    holding the boolean the evaluator returned for the refreshed window,
    timestamped with the time the evaluation was made for. A cycle of
    the InfluxDB v1 program writes one batch of one point of the same
    shape, except that its measurement is the configured
    [InfluxDBMeasurement]. *)
Theorem submitted_point_shape
    (SunriseSunset : float -> float -> Z -> Z -> Z -> Time * Time)
    (connWrite : Legacy.BatchPoints -> option string)
    (config : Configuration) (legacy : Legacy.Configuration) (writeAPI : WriteAPI)
    (w : Time * Time) (c : Readings) :
  let now := rdNow c in
  let win := fst (UpdateSunriseSunset SunriseSunset config (fst w) (snd w) now) in
  let lwin := fst (Legacy.UpdateSunriseSunset SunriseSunset legacy (fst w) (snd w) now) in
  (exists p : Point,
     submitted (snd (pollCycle SunriseSunset config writeAPI w c)) = [p] /\
     measurement p = "daylight"%string /\
     tags p = ∅ /\
     fields p = {[ "daylight"%string := VBool (Daylight (fst win) (snd win) now) ]} /\
     size (fields p) = 1%nat /\
     ptime p = now) /\
  (exists q : Legacy.Point,
     LegacyTrace.written (snd (Legacy.pollCycle SunriseSunset connWrite legacy w c)) =
       [Legacy.mkBatchPoints [q] (Legacy.InfluxDBDatabase legacy)
          (Legacy.InfluxDBRetentionPolicy legacy)] /\
     Legacy.Measurement q = Legacy.InfluxDBMeasurement legacy /\
     Legacy.Tags q = ∅ /\
     Legacy.Fields q =
       {[ "daylight"%string := VBool (Legacy.Daylight (fst lwin) (snd lwin) now) ]} /\
     size (Legacy.Fields q) = 1%nat /\
     Legacy.PTime q = now).
Proof.
  intros now win lwin. split.
  - eexists. split.
    + destruct (pollCycle_trace SunriseSunset config writeAPI w c) as [_ ->].
      rewrite submitted_app.
      destruct (UpdateSunriseSunset_silent SunriseSunset config (fst w) (snd w) (rdNow c))
        as [_ ->].
      reflexivity.
    + cbn [NewPoint measurement tags fields ptime].
      repeat split; try apply map_size_singleton.
  - eexists. split.
    + rewrite Legacy_pollCycle_trace, !Legacy_written_app.
      destruct (Legacy_UpdateSunriseSunset_silent SunriseSunset legacy
                  (fst w) (snd w) (rdNow c)) as [_ ->].
      match goal with |- context [connWrite ?b] => destruct (connWrite b) end;
        reflexivity.
    + cbn [Legacy.Measurement Legacy.Tags Legacy.Fields Legacy.PTime].
      repeat split; try apply map_size_singleton.
Qed.

(** C8, as stated, fails for the InfluxDB v1 program: configured with the
    measurement "sun", its point is named "sun", not "daylight". *)
Lemma legacy_measurement_is_configured :
  map Legacy.Measurement
    (concat (map Legacy.Points
       (LegacyTrace.written
          (snd (Legacy.pollCycle (Sample.localCalculator Sample.mdt) (fun _ => None)
                  (Sample.legacyConfig "sun")
                  (Sample.sunrise0630, Sample.sunset1945)
                  (mkReadings Sample.at1200 Sample.at1200 Sample.at1200))))))
    = ["sun"%string] /\
  "sun"%string <> "daylight"%string.
Proof.
  split; [vm_compute; reflexivity | discriminate].
Qed.

(** ** Connecting to InfluxDB *)

Lemma nonEmpty_false (s : string) : nonEmpty s = false <-> s = ""%string.
Proof.
  unfold nonEmpty. destruct (String.eqb_spec s ""); simpl; split; intros; congruence.
Qed.

(** C9. [InfluxConnect] answers with [InfluxWriteConfigError] exactly when
    the bucket is empty and the database or the retention policy is
    empty, and then leaves the configuration alone. In every other case
    it answers with a client and a write API and no error, and the
    configuration it leaves behind has [FlushInterval] 30 where 0 was
    configured and the configured value otherwise. *)
Theorem InfluxConnect_outcome (config : Configuration) :
  let db := influxDB config in
  let r := InfluxConnect config in
  (Bucket db = ""%string /\ (Database db = ""%string \/ RetentionPolicy db = ""%string) ->
     snd r = (None, None, Some InfluxWriteConfigError) /\ fst r = config) /\
  (~ (Bucket db = ""%string /\
      (Database db = ""%string \/ RetentionPolicy db = ""%string)) ->
     (exists client api, snd r = (Some client, Some api, None)) /\
     (FlushInterval db = 0 -> FlushInterval (influxDB (fst r)) = 30) /\
     (FlushInterval db <> 0 -> influxDB (fst r) = db)).
Proof.
  intros db r. subst r. unfold InfluxConnect. fold db.
  destruct (nonEmpty (Bucket db)) eqn:Eb.
  - split.
    + intros [Hb _]. apply nonEmpty_false in Hb. congruence.
    + intros _. split; [eexists; eexists; reflexivity |].
      cbn [fst]. unfold withInfluxDB. cbn [influxDB].
      destruct (Z.eqb_spec (FlushInterval db) 0); split; intros; try contradiction;
        try reflexivity.
  - apply nonEmpty_false in Eb.
    destruct (nonEmpty (Database db)) eqn:Ed; [destruct (nonEmpty (RetentionPolicy db)) eqn:Er |];
      cbn [andb].
    + split.
      * intros [_ [H | H]]; apply nonEmpty_false in H; congruence.
      * intros _. split; [eexists; eexists; reflexivity |].
        cbn [fst]. unfold withInfluxDB. cbn [influxDB].
        destruct (Z.eqb_spec (FlushInterval db) 0); split; intros; try contradiction;
          try reflexivity.
    + apply nonEmpty_false in Er. split.
      * intros _. split; reflexivity.
      * intros H. exfalso. apply H. split; [exact Eb | right; exact Er].
    + apply nonEmpty_false in Ed. split.
      * intros _. split; reflexivity.
      * intros H. exfalso. apply H. split; [exact Eb | left; exact Ed].
Qed.

Lemma InfluxConnect_outcome_witness :
  snd (InfluxConnect
         (mkConfiguration 40%float (-105)%float 60
            (mkInfluxDB "https://127.0.0.1:8086" "" "" "" "mydb" "" "" "" "" false 0)))
    = (None, None, Some InfluxWriteConfigError) /\
  FlushInterval
    (influxDB (fst (InfluxConnect
       (mkConfiguration 40%float (-105)%float 60
          (mkInfluxDB "https://127.0.0.1:8086" "" "" "" "mydb" "autogen" "" "" ""
             false 0))))) = 30.
Proof.
  split.
  - refine (proj1 (proj1 (InfluxConnect_outcome _) _)).
    vm_compute. split; [reflexivity | right; reflexivity].
  - refine (proj1 (proj2 (proj2 (InfluxConnect_outcome _) _)) _).
    + vm_compute. intros [_ [H | H]]; discriminate H.
    + reflexivity.
Defined.

(** ** Shutdown *)

Lemma filter_isFlush_shutdown (tr : list Event) :
  List.filter isFlush tr = List.filter isFlush (List.filter isShutdownEvent tr).
Proof.
  induction tr as [| e tr IH]; [reflexivity |].
  destruct e; simpl; rewrite <- ?IH; reflexivity.
Qed.

Lemma Some_eq_inv {A : Type} (x y : A) : Some x = Some y -> x = y.
Proof. intros H. injection H as ->. reflexivity. Qed.

Lemma None_ne_Some_inv {A : Type} (y : A) (P : Prop) : None = Some y -> P.
Proof. intros H. discriminate H. Qed.

Section ShutdownProofs.

Variable SunriseSunset : float -> float -> Z -> Z -> Z -> Time * Time.
Variable config : Configuration.
Variable writeAPI : WriteAPI.

(** A cycle produces none of the main goroutine's shutdown events. *)
Lemma pollCycle_no_shutdown_events (w : Time * Time) (c : Readings) :
  List.filter isShutdownEvent (snd (pollCycle SunriseSunset config writeAPI w c)) = [].
Proof.
  destruct (pollCycle_trace SunriseSunset config writeAPI w c) as [_ ->].
  rewrite List.filter_app. unfold UpdateSunriseSunset.
  destruct ((Day (fst w) =? Day (Add (rdNow c) (-24 * Hour)))
            || (Day (snd w) =? Day (Add (rdNow c) (-24 * Hour)))); reflexivity.
Qed.

Lemma started_inv (now : Time) : shutdownInv (started SunriseSunset config now).
Proof. unfold shutdownInv, started. simpl. split; reflexivity. Qed.

Lemma stepWith_inv (ch : Choice) (p p' : Process) :
  shutdownInv p ->
  stepWith SunriseSunset config writeAPI ch p = Some p' ->
  shutdownInv p'.
Proof.
  destruct p as [pc cg w tr]. unfold shutdownInv, stepWith, advance.
  cbn [mainPc caught window trace].
  intros Hinv Hstep.
  destruct ch as [sig | | c].
  - (* a signal is delivered *)
    destruct pc; inversion Hstep; subst; cbn [mainPc caught window trace];
      try exact Hinv.
    destruct cg as [g |]; [destruct Hinv as [Hne _]; contradiction |].
    destruct Hinv as [_ Hview].
    split; [discriminate |].
    rewrite List.filter_app, Hview. reflexivity.
  - (* the main goroutine runs its next statement *)
    destruct pc; inversion Hstep; subst; cbn [mainPc caught window trace];
      (destruct cg as [g |]; [| destruct Hinv as [Hpc _]; discriminate Hpc]);
      destruct Hinv as [_ Hview];
      (split; [discriminate |]);
      rewrite List.filter_app, Hview; reflexivity.
  - (* the poll goroutine runs a cycle *)
    assert (Hp' : p' = mkProcess pc cg
              (fst (pollCycle SunriseSunset config writeAPI w c))
              (tr ++ snd (pollCycle SunriseSunset config writeAPI w c))).
    { destruct pc;
        [ symmetry; exact (Some_eq_inv _ _ Hstep) | symmetry; exact (Some_eq_inv _ _ Hstep)
        | symmetry; exact (Some_eq_inv _ _ Hstep) | symmetry; exact (Some_eq_inv _ _ Hstep)
        | symmetry; exact (Some_eq_inv _ _ Hstep) | exact (None_ne_Some_inv _ _ Hstep) ]. }
    subst p'. cbn [mainPc caught window trace].
    rewrite List.filter_app, pollCycle_no_shutdown_events, app_nil_r.
    exact Hinv.
Qed.

Lemma run_inv (sched : list Choice) (p p' : Process) :
  shutdownInv p ->
  run SunriseSunset config writeAPI sched p = Some p' ->
  shutdownInv p'.
Proof.
  revert p. induction sched as [| ch sched IH]; intros p Hinv Hrun.
  - inversion Hrun. subst. exact Hinv.
  - cbn [run] in Hrun.
    destruct (stepWith SunriseSunset config writeAPI ch p) as [p1 |] eqn:E;
      [| discriminate].
    apply (IH p1); [| exact Hrun].
    apply (stepWith_inv ch p); assumption.
Qed.

(** A cycle can run in every state but the exited one. *)
Lemma cycle_enabled (c : Readings) (q : Process) :
  mainPc q <> Exited ->
  exists q', stepWith SunriseSunset config writeAPI (RunCycle c) q = Some q' /\
             mainPc q' = mainPc q /\
             length (submitted (trace q')) = S (length (submitted (trace q))).
Proof.
  intros Hlive.
  exists (mkProcess (mainPc q) (caught q)
            (fst (pollCycle SunriseSunset config writeAPI (window q) c))
            (trace q ++ snd (pollCycle SunriseSunset config writeAPI (window q) c))).
  split; [| split].
  - unfold stepWith. destruct (mainPc q); try reflexivity. contradiction.
  - reflexivity.
  - cbn [trace]. rewrite submitted_app, length_app.
    pose proof (pollLoop_submits_each_cycle SunriseSunset config writeAPI [c] (window q))
      as H.
    cbn [pollLoop] in H. unfold bind, ret in H. cbn [fst snd] in H.
    rewrite app_nil_r in H. rewrite H. simpl. lia.
Qed.

End ShutdownProofs.

(** C3, as amended. Once a termination signal has been received, the
    main goroutine logs it, calls [Flush], and on returning runs its
    deferred [Flush] and then its deferred [Close]: whatever the
    interleaving, a run that reaches the exit has flushed exactly twice.
    The poll goroutine is not told to stop: in every state short of the
    exit, also between the signal and the flushes, it can run a cycle,
    and that cycle submits a point. *)
Theorem shutdown_flushes_twice
    (SunriseSunset : float -> float -> Z -> Z -> Z -> Time * Time)
    (config : Configuration) (writeAPI : WriteAPI)
    (now : Time) (sched : list Choice) (p : Process) :
  run SunriseSunset config writeAPI sched (started SunriseSunset config now) = Some p ->
  mainPc p = Exited ->
  (exists sig, List.filter isShutdownEvent (trace p) = shutdownEvents sig) /\
  count isFlush (trace p) = 2%nat /\
  (forall c q, mainPc q <> Exited ->
     exists q', stepWith SunriseSunset config writeAPI (RunCycle c) q = Some q' /\
                mainPc q' = mainPc q /\
                length (submitted (trace q')) = S (length (submitted (trace q)))).
Proof.
  intros Hrun Hexit.
  pose proof (run_inv SunriseSunset config writeAPI sched _ p
                (started_inv SunriseSunset config now) Hrun) as Hinv.
  unfold shutdownInv in Hinv. rewrite Hexit in Hinv.
  destruct (caught p) as [sig |]; [| destruct Hinv as [H _]; discriminate H].
  destruct Hinv as [_ Hview]. cbn [stage firstn shutdownEvents] in Hview.
  split; [exists sig; exact Hview |].
  split; [| intros c q; apply cycle_enabled].
  unfold count. rewrite filter_isFlush_shutdown, Hview. reflexivity.
Qed.

Lemma shutdown_flushes_twice_witness :
  count isFlush (trace Sample.finalProcess) = 2%nat.
Proof.
  refine (proj1 (proj2 (shutdown_flushes_twice (Sample.localCalculator 0) Sample.boulder
                          Sample.api Sample.startedAt Sample.schedule
                          Sample.finalProcess _ _))).
  - vm_compute. reflexivity.
  - vm_compute. reflexivity.
Defined.

(** C3, as stated, fails: in the run below the signal arrives between two
    cycles; the main goroutine flushes, the poll goroutine runs one more
    cycle and submits a point, and the main goroutine flushes a second
    time before it closes the client and returns. *)
Lemma shutdown_two_flushes_one_late_point :
  (Sample.shutdownRun = Some Sample.finalProcess /\
   mainPc Sample.finalProcess = Exited) /\
  (count isFlush (after isSignal (trace Sample.finalProcess)) = 2%nat /\
   length (submitted (after isSignal (trace Sample.finalProcess))) = 1%nat /\
   length (submitted (after isFlush (trace Sample.finalProcess))) = 1%nat) /\
  ~ (forall calc config writeAPI now sched p,
       run calc config writeAPI sched (started calc config now) = Some p ->
       mainPc p = Exited ->
       submitted (after isSignal (trace p)) = [] /\
       count isFlush (after isSignal (trace p)) = 1%nat /\
       submitted (after isFlush (trace p)) = []).
Proof.
  split; [split; vm_compute; reflexivity |].
  split; [repeat split; vm_compute; reflexivity |].
  intros H.
  destruct (H (Sample.localCalculator 0) Sample.boulder Sample.api Sample.startedAt
              Sample.schedule Sample.finalProcess) as (_ & Hcount & _).
  - vm_compute. reflexivity.
  - vm_compute. reflexivity.
  - vm_compute in Hcount. discriminate Hcount.
Qed.

(** ** Yesterday, on the calendar *)

Lemma Unix_yesterday (t : Time) : Unix (Add t (-24 * Hour)) = Unix t - 86400.
Proof.
  unfold Unix, Add, Hour, Minute, Second, Nanosecond. cbn [unixNano].
  replace (unixNano t + -24 * (60 * (60 * (1000000000 * 1))))
    with (unixNano t + (-86400) * (1000000000 * 1)) by lia.
  rewrite Z.div_add by lia. lia.
Qed.

(** Within the calendar's range and in a steady zone,
    [t.Add(-24*time.Hour)] is on the local day before that of [t]. *)
Lemma localDays_yesterday (t : Time) :
  calendarRange t ->
  zoneSteady t ->
  localDays (Add t (-24 * Hour)) = localDays t - 1.
Proof.
  unfold calendarRange, zoneSteady. intros Hrange Hzone.
  unfold localDays, abs. rewrite Unix_yesterday.
  change (loc (Add t (-24 * Hour))) with (loc t). rewrite Hzone.
  set (x := Unix t + lookup (loc t) (Unix t) + unixToAbsolute) in *.
  replace (Unix t - 86400 + lookup (loc t) (Unix t) + unixToAbsolute)
    with (x - 86400) by (subst x; lia).
  change (2 ^ 64) with 18446744073709551616 in *.
  rewrite !Z.mod_small by lia.
  replace (x - 86400) with (x + (-1) * 86400) by lia.
  rewrite Z.div_add by lia. lia.
Qed.

Lemma civil_day (days : Z) :
  snd (civil days) = dayOfDoe ((days + 719468) mod daysPerEra).
Proof. reflexivity. Qed.

Lemma in_gaps27 (g : Z) : 1 <= g <= 27 -> In g gaps27.
Proof.
  intros H. unfold gaps27.
  assert (Hcases : g = 1 \/ g = 2 \/ g = 3 \/ g = 4 \/ g = 5 \/ g = 6 \/ g = 7 \/
                   g = 8 \/ g = 9 \/ g = 10 \/ g = 11 \/ g = 12 \/ g = 13 \/
                   g = 14 \/ g = 15 \/ g = 16 \/ g = 17 \/ g = 18 \/ g = 19 \/
                   g = 20 \/ g = 21 \/ g = 22 \/ g = 23 \/ g = 24 \/ g = 25 \/
                   g = 26 \/ g = 27) by lia.
  repeat (destruct Hcases as [-> | Hcases]; [simpl; tauto |]).
  subst g. simpl. tauto.
Qed.

Lemma dayOfDoe_split doe : dayOfDoe doe = dayOfDoy (doe - yearStart (yearOfDoe doe)).
Proof. reflexivity. Qed.

Lemma yearOfDoe_inside y doe :
  0 <= y < 399 -> yearStart y <= doe < yearStart (y + 1) -> yearOfDoe doe = y.
Proof.
  intros Hy H. unfold yearOfDoe, yearStart in *. Z.div_mod_to_equations. lia.
Qed.

Lemma yearOfDoe_last doe : 145731 <= doe < 146097 -> yearOfDoe doe = 399.
Proof.
  intros H. unfold yearOfDoe. Z.div_mod_to_equations. lia.
Qed.

Lemma yearOfDoe_bounds doe :
  0 <= doe < 146097 ->
  0 <= yearOfDoe doe <= 399 /\
  yearStart (yearOfDoe doe) <= doe /\
  (yearOfDoe doe < 399 -> doe < yearStart (yearOfDoe doe + 1)).
Proof.
  intros H. unfold yearOfDoe, yearStart. Z.div_mod_to_equations. lia.
Qed.

Lemma yearStart_step y : 0 <= y -> 365 <= yearStart (y + 1) - yearStart y <= 366.
Proof. intros H. unfold yearStart. Z.div_mod_to_equations. lia. Qed.

Lemma in_zrange n : forall lo x, lo <= x < lo + Z.of_nat n -> In x (zrange lo n).
Proof.
  induction n as [| n IH]; intros lo x H; [lia |].
  cbn [zrange]. destruct (Z.eq_dec x lo) as [-> | Hne]; [left; reflexivity |].
  right. apply IH. lia.
Qed.

Lemma yearTable_ok : yearTable = true.
Proof. vm_compute. reflexivity. Qed.

Lemma daysDiffer_table (doy g : Z) :
  0 <= doy < 366 -> 1 <= g <= 27 -> daysDiffer doy g = true.
Proof.
  intros Hd Hg. pose proof yearTable_ok as H. unfold yearTable in H.
  rewrite forallb_forall in H.
  specialize (H doy (in_zrange 366 0 doy ltac:(lia))).
  rewrite forallb_forall in H. apply H. apply in_gaps27. exact Hg.
Qed.

Lemma dayOfDoe_apart (k g : Z) :
  0 <= k < daysPerEra -> 1 <= g <= 27 ->
  dayOfDoe k <> dayOfDoe ((k - g) mod daysPerEra).
Proof.
  unfold daysPerEra. intros Hk Hg.
  destruct (yearOfDoe_bounds k Hk) as (Hy & Hlo & Hhi).
  set (y := yearOfDoe k) in *.
  assert (Hlast : yearStart 399 = 145731) by reflexivity.
  assert (Hfirst : yearStart 0 = 0) by reflexivity.
  assert (Hd : 0 <= k - yearStart y < 366).
  { destruct (Z.eq_dec y 399) as [E | E].
    - rewrite E, Hlast. rewrite E, Hlast in Hlo. lia.
    - pose proof (yearStart_step y ltac:(lia)). specialize (Hhi ltac:(lia)). lia. }
  pose proof (daysDiffer_table (k - yearStart y) g Hd Hg) as Htab.
  unfold daysDiffer in Htab.
  rewrite (dayOfDoe_split k). fold y.
  destruct (Z.leb_spec g (k - yearStart y)) as [Hin | Hout].
  - (* the earlier day is in the same year *)
    apply negb_true_iff, Z.eqb_neq in Htab.
    assert (Hstart : 0 <= yearStart y).
    { unfold yearStart. Z.div_mod_to_equations. lia. }
    rewrite Z.mod_small by lia.
    rewrite dayOfDoe_split.
    assert (Hy' : yearOfDoe (k - g) = y).
    { destruct (Z.eq_dec y 399) as [E | E].
      - rewrite E. apply yearOfDoe_last. rewrite E, Hlast in Hin. lia.
      - apply yearOfDoe_inside; [lia |]. specialize (Hhi ltac:(lia)). lia. }
    rewrite Hy'. replace (k - g - yearStart y) with (k - yearStart y - g) by lia.
    exact Htab.
  - (* the earlier day is in the year before *)
    apply andb_true_iff in Htab as [H365 H366].
    apply negb_true_iff, Z.eqb_neq in H365, H366.
    destruct (Z.eq_dec y 0) as [E | E].
    + rewrite E, Hfirst in *.
      replace ((k - g) mod 146097) with (k - g + 146097).
      2:{ apply (Z.mod_unique (k - g) 146097 (-1) (k - g + 146097)); lia. }
      rewrite dayOfDoe_split.
      rewrite (yearOfDoe_last (k - g + 146097)) by lia.
      rewrite Hlast.
      replace (k - g + 146097 - 145731) with (366 + (k - 0) - g) by lia.
      exact H366.
    + pose proof (yearStart_step (y - 1) ltac:(lia)) as Hlen.
      replace (y - 1 + 1) with y in Hlen by lia.
      assert (Hprev : 0 <= yearStart (y - 1)).
      { unfold yearStart. Z.div_mod_to_equations. lia. }
      rewrite Z.mod_small by lia.
      rewrite dayOfDoe_split.
      rewrite (yearOfDoe_inside (y - 1) (k - g))
        by (try replace (y - 1 + 1) with y by lia; lia).
      assert (Hcase : yearStart y - yearStart (y - 1) = 365 \/
                      yearStart y - yearStart (y - 1) = 366) by lia.
      destruct Hcase as [L | L].
      * replace (k - g - yearStart (y - 1)) with (365 + (k - yearStart y) - g) by lia.
        exact H365.
      * replace (k - g - yearStart (y - 1)) with (366 + (k - yearStart y) - g) by lia.
        exact H366.
Qed.

(** Two days less than four weeks apart never share a day of the month. *)
Lemma civil_days_apart (d g : Z) :
  1 <= g <= 27 -> snd (civil d) <> snd (civil (d - g)).
Proof.
  intros Hg. rewrite !civil_day.
  replace (d - g + 719468) with (d + 719468 - g) by lia.
  rewrite <- (Zminus_mod_idemp_l (d + 719468) g daysPerEra).
  apply dayOfDoe_apart; [| exact Hg].
  apply Z.mod_pos_bound. reflexivity.
Qed.

Lemma Day_apart (x y : Time) :
  localDays x <> localDays y ->
  -27 <= localDays x - localDays y <= 27 ->
  Day x <> Day y.
Proof.
  intros Hne Hnear. unfold Day.
  destruct (Z_lt_le_dec (localDays y) (localDays x)) as [Hlt | Hge].
  - replace (localDays y) with (localDays x - (localDays x - localDays y)) by lia.
    apply civil_days_apart. lia.
  - intros Heq. symmetry in Heq. revert Heq.
    replace (localDays x) with (localDays y - (localDays y - localDays x)) by lia.
    apply civil_days_apart. lia.
Qed.

(** ** The staleness test, read on the calendar *)

Lemma calculatorCalls_app (tr1 tr2 : list Event) :
  calculatorCalls (tr1 ++ tr2) = (calculatorCalls tr1 + calculatorCalls tr2)%nat.
Proof.
  induction tr1 as [| e tr1 IH]; [reflexivity |].
  destruct e; simpl; rewrite IH; reflexivity.
Qed.

Section ByLocalDate.

Variable SunriseSunset : float -> float -> Z -> Z -> Z -> Time * Time.
Variable config : Configuration.

Lemma stale_by_date (sr ss t : Time) :
  calendarRange t ->
  zoneSteady t ->
  localDays sr = localDays t - 1 \/ localDays ss = localDays t - 1 ->
  UpdateSunriseSunset SunriseSunset config sr ss t =
    callSunriseSunset SunriseSunset (Latitude config) (Longitude config)
      (Year t) (Month t) (Day t).
Proof.
  intros Hrange Hzone Hday. apply UpdateSunriseSunset_stale.
  unfold Day. rewrite (localDays_yesterday t Hrange Hzone).
  destruct Hday as [-> | ->]; [left | right]; reflexivity.
Qed.

Lemma fresh_by_date (sr ss t : Time) :
  calendarRange t ->
  zoneSteady t ->
  -26 <= localDays t - localDays sr <= 28 ->
  -26 <= localDays t - localDays ss <= 28 ->
  localDays sr <> localDays t - 1 ->
  localDays ss <> localDays t - 1 ->
  UpdateSunriseSunset SunriseSunset config sr ss t = ((sr, ss), []).
Proof.
  intros Hrange Hzone Hsr Hss Nsr Nss.
  pose proof (localDays_yesterday t Hrange Hzone) as Hy.
  apply UpdateSunriseSunset_fresh; apply Day_apart; rewrite Hy; lia.
Qed.

(** X1. Write the day number of an instant for the day [Time.Date]
    finds for it in the instant's own location: the UTC day for what
    go-sunrise returns, the local day for [t]. For a cached sunrise and
    sunset whose day numbers lie between 26 after and 28 before that of
    [t], with [t] in a steady zone and in the calendar's range, the
    calculator is called exactly when the day number of the sunrise or
    of the sunset is one less than that of [t]. So a window whose UTC
    sunrise falls on the day before the local day of [t] is refreshed at
    every poll of that day, and a window whose day numbers are both two
    or more below that of [t] is never refreshed. *)
Theorem UpdateSunriseSunset_by_local_date (sr ss t : Time) :
  calendarRange t ->
  zoneSteady t ->
  -26 <= localDays t - localDays sr <= 28 ->
  -26 <= localDays t - localDays ss <= 28 ->
  (localDays sr = localDays t - 1 \/ localDays ss = localDays t - 1 ->
     UpdateSunriseSunset SunriseSunset config sr ss t =
       (SunriseSunset (Latitude config) (Longitude config) (Year t) (Month t) (Day t),
        [EvSunriseSunset (Latitude config) (Longitude config)
           (Year t) (Month t) (Day t)])) /\
  (localDays sr <> localDays t - 1 -> localDays ss <> localDays t - 1 ->
     UpdateSunriseSunset SunriseSunset config sr ss t = ((sr, ss), [])).
Proof.
  intros Hrange Hzone Hsr Hss. split.
  - intros Hday. apply stale_by_date; assumption.
  - intros Nsr Nss. apply fresh_by_date; assumption.
Qed.

Variable writeAPI : WriteAPI.

(** X2. Polled at least once a day, with a calculator whose sunrise for
    the date of a poll has the day number of the poll and whose sunset
    has that day number or the next (answers in UTC for a place west of
    Greenwich, or answers in the zone of the polls), the loop started
    with such a window for day [d] ends with such a window for the day
    of its last poll, and it has called the calculator once per day
    change: as many times as days have passed. *)
Theorem pollLoop_refreshes_once_per_day
    (cs : list Readings) (w : Time * Time) (d : Z) :
  localDays (fst w) = d ->
  0 <= localDays (snd w) - d <= 1 ->
  polledDaily SunriseSunset config d cs ->
  localDays (fst (fst (pollLoop SunriseSunset config writeAPI w cs))) = lastDay d cs /\
  0 <= localDays (snd (fst (pollLoop SunriseSunset config writeAPI w cs)))
       - lastDay d cs <= 1 /\
  Z.of_nat (calculatorCalls (snd (pollLoop SunriseSunset config writeAPI w cs)))
    = lastDay d cs - d.
Proof.
  revert w d. induction cs as [| c cs IH]; intros w d Hsr Hss Hpolled.
  - cbn. repeat split; try assumption; lia.
  - cbn [polledDaily] in Hpolled.
    destruct Hpolled as (Hrange & Hzone & Hstep & Hfsr & Hfss & Hrest).
    destruct w as [sr ss]. cbn [fst snd] in Hsr, Hss.
    cbn [pollLoop lastDay]. unfold bind. cbn [fst snd].
    destruct (pollCycle_trace SunriseSunset config writeAPI (sr, ss) c) as [Hw Htr].
    rewrite Hw, Htr, !calculatorCalls_app.
    set (t := rdNow c) in *.
    destruct (Z.eq_dec (localDays t) d) as [Hsame | Hnext].
    + (* still the day of the window *)
      cbn [fst snd].
      rewrite (fresh_by_date sr ss t) by (try assumption; lia).
      cbn [fst snd].
      destruct (IH (sr, ss) (localDays t)) as (H1 & H2 & H3);
        try assumption; cbn [fst snd]; try lia.
      repeat split; try assumption; try lia.
      cbn [calculatorCalls Nat.add]. lia.
    + (* the first poll of the next day *)
      cbn [fst snd].
      rewrite (stale_by_date sr ss t) by (try assumption; left; lia).
      unfold callSunriseSunset. cbn [fst snd].
      destruct (IH (SunriseSunset (Latitude config) (Longitude config)
                      (Year t) (Month t) (Day t)) (localDays t))
        as (H1 & H2 & H3); try assumption.
      repeat split; try assumption; try lia.
      cbn [calculatorCalls Nat.add]. lia.
Qed.


End ByLocalDate.

Lemma UpdateSunriseSunset_by_local_date_witness :
  UpdateSunriseSunset Sample2.westCalculator Sample.boulder
      (fst Sample2.april20Window) (snd Sample2.april20Window) Sample.nextDay0005 =
    (Sample2.westCalculator 40%float (-105)%float 2021 4 21,
     [EvSunriseSunset 40%float (-105)%float 2021 4 21]) /\
  UpdateSunriseSunset Sample2.westCalculator Sample.boulder
      (fst Sample2.april20Window) (snd Sample2.april20Window) Sample.at2000 =
    (Sample2.april20Window, []) /\
  UpdateSunriseSunset Sample.utcCalculator Sample.sydney
      (fst Sample2.march20Window) (snd Sample2.march20Window) Sample.sydneyMorning =
    (Sample2.march20Window, [EvSunriseSunset (-34)%float 151%float 2024 3 20]).
Proof.
  split; [| split].
  - refine (proj1 (UpdateSunriseSunset_by_local_date
                     Sample2.westCalculator Sample.boulder
                     (fst Sample2.april20Window) (snd Sample2.april20Window)
                     Sample.nextDay0005 _ _ _ _) _).
    + vm_compute. split; [discriminate | reflexivity].
    + reflexivity.
    + vm_compute. split; discriminate.
    + vm_compute. split; discriminate.
    + left. vm_compute. reflexivity.
  - refine (proj2 (UpdateSunriseSunset_by_local_date
                     Sample2.westCalculator Sample.boulder
                     (fst Sample2.april20Window) (snd Sample2.april20Window)
                     Sample.at2000 _ _ _ _) _ _).
    + vm_compute. split; [discriminate | reflexivity].
    + reflexivity.
    + vm_compute. split; discriminate.
    + vm_compute. split; discriminate.
    + vm_compute. discriminate.
    + vm_compute. discriminate.
  - refine (proj1 (UpdateSunriseSunset_by_local_date
                     Sample.utcCalculator Sample.sydney
                     (fst Sample2.march20Window) (snd Sample2.march20Window)
                     Sample.sydneyMorning _ _ _ _) _).
    + vm_compute. split; [discriminate | reflexivity].
    + reflexivity.
    + vm_compute. split; discriminate.
    + vm_compute. split; discriminate.
    + left. vm_compute. reflexivity.
Defined.

Lemma pollLoop_refreshes_once_per_day_witness :
  Z.of_nat
    (calculatorCalls
       (snd (pollLoop Sample2.westCalculator Sample.boulder Sample.api
               Sample2.april20Window Sample2.twoDays)))
    = lastDay Sample2.april20 Sample2.twoDays - Sample2.april20.
Proof.
  refine (proj2 (proj2 (pollLoop_refreshes_once_per_day
                          Sample2.westCalculator Sample.boulder Sample.api
                          Sample2.twoDays Sample2.april20Window
                          Sample2.april20 _ _ _))).
  - vm_compute. reflexivity.
  - vm_compute. split; discriminate.
  - vm_compute. repeat split; try reflexivity; discriminate.
Defined.


(** ** What a run of the loop does *)

Lemma sleeps_app (tr1 tr2 : list Event) :
  sleeps (tr1 ++ tr2) = (sleeps tr1 + sleeps tr2)%nat.
Proof.
  induction tr1 as [| e tr1 IH]; [reflexivity |].
  destruct e; simpl; rewrite IH; reflexivity.
Qed.

Lemma UpdateSunriseSunset_effects
    (SunriseSunset : float -> float -> Z -> Z -> Z -> Time * Time)
    (config : Configuration) (sr ss t : Time) :
  sleeps (snd (UpdateSunriseSunset SunriseSunset config sr ss t)) = 0%nat /\
  (calculatorCalls (snd (UpdateSunriseSunset SunriseSunset config sr ss t)) <= 1)%nat.
Proof.
  unfold UpdateSunriseSunset.
  destruct ((Day sr =? Day (Add t (-24 * Hour)))
            || (Day ss =? Day (Add t (-24 * Hour)))); simpl; lia.
Qed.

(** X3. A run of [n] cycles submits exactly [n] points, stamped in order
    with the [now] readings of the cycles, sleeps [n] times, and calls
    the calculator at most [n] times. *)
Theorem pollLoop_one_sample_per_cycle
    (SunriseSunset : float -> float -> Z -> Z -> Z -> Time * Time)
    (config : Configuration) (writeAPI : WriteAPI)
    (cs : list Readings) (w : Time * Time) :
  map ptime (submitted (snd (pollLoop SunriseSunset config writeAPI w cs)))
    = map rdNow cs /\
  sleeps (snd (pollLoop SunriseSunset config writeAPI w cs)) = length cs /\
  (calculatorCalls (snd (pollLoop SunriseSunset config writeAPI w cs)) <= length cs)%nat.
Proof.
  revert w. induction cs as [| c cs IH]; intros w.
  - cbn. repeat split. lia.
  - cbn [pollLoop]. unfold bind. cbn [fst snd].
    destruct (IH (fst (pollCycle SunriseSunset config writeAPI w c)))
      as (Hstamps & Hsleeps & Hcalls).
    destruct (pollCycle_trace SunriseSunset config writeAPI w c) as [_ ->].
    rewrite !submitted_app, !sleeps_app, !calculatorCalls_app, !map_app.
    destruct (UpdateSunriseSunset_silent SunriseSunset config (fst w) (snd w) (rdNow c))
      as [_ ->].
    destruct (UpdateSunriseSunset_effects SunriseSunset config (fst w) (snd w) (rdNow c))
      as [-> Hone].
    rewrite Hstamps, Hsleeps.
    cbn [submitted sleeps calculatorCalls map app NewPoint ptime length Nat.add].
    repeat split. lia.
Qed.

(** ** The cadence at its edges *)

(** The duration handed to [time.Sleep], when nothing overflows. *)
Lemma pollCycle_requested_exact
    (SunriseSunset : float -> float -> Z -> Z -> Z -> Time * Time)
    (config : Configuration) (writeAPI : WriteAPI) (w : Time * Time) (c : Readings) :
  0 <= PollInterval config ->
  (PollInterval config + 2 ^ 31) * Second < 2 ^ 63 ->
  inInt32 (Unix (rdEnd c) - Unix (rdStart c)) ->
  requested (snd (pollCycle SunriseSunset config writeAPI w c)) =
    [(PollInterval config - (Unix (rdEnd c) - Unix (rdStart c))) * Second].
Proof.
  intros Hpos Hfit He. rewrite pollCycle_requested.
  set (e := Unix (rdEnd c) - Unix (rdStart c)) in *.
  set (p := PollInterval config) in *.
  rewrite (int32_small e He).
  unfold inInt32 in He. unfold Second, Nanosecond in *.
  change (2 ^ 63) with 9223372036854775808 in Hfit.
  change (2 ^ 31) with 2147483648 in Hfit, He.
  unfold mul64, sub64.
  rewrite (int64_small (p * _))
    by (unfold inInt64; change (2 ^ 63) with 9223372036854775808; lia).
  rewrite (int64_small (e * _))
    by (unfold inInt64; change (2 ^ 63) with 9223372036854775808; lia).
  rewrite int64_small
    by (unfold inInt64; change (2 ^ 63) with 9223372036854775808; lia).
  f_equal. lia.
Qed.

(** X4. When the wall clock is set back during a cycle, so that the Unix
    reading at its end is below the one at its start, the elapsed time
    is negative and the cycle sleeps longer than the poll interval, by
    as much as the clock went back. *)
Theorem pollCycle_clock_set_back
    (SunriseSunset : float -> float -> Z -> Z -> Z -> Time * Time)
    (config : Configuration) (writeAPI : WriteAPI) (w : Time * Time) (c : Readings) :
  0 <= PollInterval config ->
  (PollInterval config + 2 ^ 31) * Second < 2 ^ 63 ->
  - 2 ^ 31 <= Unix (rdEnd c) - Unix (rdStart c) < 0 ->
  pauses (snd (pollCycle SunriseSunset config writeAPI w c)) =
    [(PollInterval config + (Unix (rdStart c) - Unix (rdEnd c))) * Second] /\
  PollInterval config * Second
    < (PollInterval config + (Unix (rdStart c) - Unix (rdEnd c))) * Second.
Proof.
  intros Hpos Hfit Hback.
  assert (He : inInt32 (Unix (rdEnd c) - Unix (rdStart c))).
  { unfold inInt32. change (2 ^ 31) with 2147483648 in *. lia. }
  unfold pauses.
  rewrite (pollCycle_requested_exact SunriseSunset config writeAPI w c Hpos Hfit He).
  cbn [map]. unfold Sleep, Second, Nanosecond in *.
  change (2 ^ 31) with 2147483648 in Hback.
  split; [f_equal |]; lia.
Qed.

Lemma pollCycle_clock_set_back_witness :
  pauses (snd (pollCycle (Sample.localCalculator 0) Sample.boulder Sample.api
                 (Sample.sunrise0630, Sample.sunset1945)
                 (Sample2.steppedBack 1618920000 10))) = [70 * Second].
Proof.
  refine (eq_trans (proj1 (pollCycle_clock_set_back (Sample.localCalculator 0)
                             Sample.boulder Sample.api
                             (Sample.sunrise0630, Sample.sunset1945)
                             (Sample2.steppedBack 1618920000 10) _ _ _)) _).
  - vm_compute. discriminate.
  - vm_compute. reflexivity.
  - vm_compute. split; [discriminate | reflexivity].
  - vm_compute. reflexivity.
Defined.

(** ** What the data and the cadence depend on *)

Lemma UpdateSunriseSunset_same_place
    (SunriseSunset : float -> float -> Z -> Z -> Z -> Time * Time)
    (config config' : Configuration) (sr ss t : Time) :
  Latitude config = Latitude config' ->
  Longitude config = Longitude config' ->
  UpdateSunriseSunset SunriseSunset config sr ss t =
  UpdateSunriseSunset SunriseSunset config' sr ss t.
Proof.
  intros Hlat Hlon. unfold UpdateSunriseSunset. rewrite Hlat, Hlon. reflexivity.
Qed.

(** X5. The window a cycle returns and the point it submits depend on
    the configuration only through the latitude and the longitude: the
    InfluxDB section (the measurement prefix included), the poll
    interval and the write API do not enter. The duration it asks to
    sleep depends only on the poll interval and the Unix readings at
    the start and the end, not on the window or the calculator. *)
Theorem pollCycle_data_and_cadence_separate
    (SunriseSunset SunriseSunset' : float -> float -> Z -> Z -> Z -> Time * Time)
    (config config' : Configuration) (writeAPI writeAPI' : WriteAPI)
    (w w' : Time * Time) (c c' : Readings) :
  (Latitude config = Latitude config' ->
   Longitude config = Longitude config' ->
   rdNow c = rdNow c' ->
   fst (pollCycle SunriseSunset config writeAPI w c) =
     fst (pollCycle SunriseSunset config' writeAPI' w c') /\
   submitted (snd (pollCycle SunriseSunset config writeAPI w c)) =
     submitted (snd (pollCycle SunriseSunset config' writeAPI' w c'))) /\
  (PollInterval config = PollInterval config' ->
   Unix (rdStart c) = Unix (rdStart c') ->
   Unix (rdEnd c) = Unix (rdEnd c') ->
   requested (snd (pollCycle SunriseSunset config writeAPI w c)) =
     requested (snd (pollCycle SunriseSunset' config' writeAPI' w' c'))).
Proof.
  split.
  - intros Hlat Hlon Hnow.
    destruct (pollCycle_trace SunriseSunset config writeAPI w c) as [-> ->].
    destruct (pollCycle_trace SunriseSunset config' writeAPI' w c') as [-> ->].
    rewrite <- Hnow.
    rewrite (UpdateSunriseSunset_same_place SunriseSunset config config'
               (fst w) (snd w) (rdNow c) Hlat Hlon).
    split; [reflexivity |].
    rewrite !submitted_app. reflexivity.
  - intros Hpoll Hstart Hend.
    rewrite !pollCycle_requested, Hpoll, Hstart, Hend. reflexivity.
Qed.

Lemma pollCycle_data_and_cadence_separate_witness :
  submitted (snd (pollCycle (Sample.localCalculator Sample.mdt) Sample.boulder
                    Sample.api (Sample.sunrise0630, Sample.sunset1945)
                    (mkReadings Sample.at0644 Sample.at1200 Sample.at1200))) =
  submitted (snd (pollCycle (Sample.localCalculator Sample.mdt) Sample2.tokenAndUser
                    (mkWriteAPI "" "") (Sample.sunrise0630, Sample.sunset1945)
                    (mkReadings Sample.at1200 Sample.at1200 Sample.at2000))).
Proof.
  refine (proj2 (proj1 (pollCycle_data_and_cadence_separate
            (Sample.localCalculator Sample.mdt) (Sample.localCalculator Sample.mdt)
            Sample.boulder Sample2.tokenAndUser Sample.api (mkWriteAPI "" "")
            (Sample.sunrise0630, Sample.sunset1945)
            (Sample.sunrise0630, Sample.sunset1945)
            (mkReadings Sample.at0644 Sample.at1200 Sample.at1200)
            (mkReadings Sample.at1200 Sample.at1200 Sample.at2000)) _ _ _)).
  - reflexivity.
  - reflexivity.
  - reflexivity.
Defined.

(** ** What [InfluxConnect] connects with *)

Lemma nonEmpty_true (s : string) : nonEmpty s = true <-> s <> ""%string.
Proof.
  unfold nonEmpty. destruct (String.eqb_spec s ""); simpl; split; intros; congruence.
Qed.

(** The client and the write API of a successful call, as the function
    builds them. *)
Lemma InfluxConnect_success (config : Configuration) (client : Client) (api : WriteAPI) :
  snd (InfluxConnect config) = (Some client, Some api, None) ->
  let db := influxDB config in
  let interval := if FlushInterval db =? 0 then 30 else FlushInterval db in
  client =
    mkClient (Address db)
      (if nonEmpty (Token db) then Token db
       else if nonEmpty (Username db) && nonEmpty (Password db)
         then (Username db ++ ":" ++ Password db)%string
       else ""%string)
      (mkOptions (mulU 1000 interval) (SkipVerifySsl db)) /\
  ((nonEmpty (Bucket db) = true /\ api = mkWriteAPI (Organization db) (Bucket db)) \/
   (nonEmpty (Bucket db) = false /\ nonEmpty (Database db) = true /\
    nonEmpty (RetentionPolicy db) = true /\
    api = mkWriteAPI (Organization db)
            (Database db ++ "/" ++ RetentionPolicy db)%string)).
Proof.
  intros H db interval. subst interval. unfold InfluxConnect in H. fold db in H.
  destruct db as [addr user pass prefix database rp token org bucket skip flush].
  cbn [Address Username Password MeasurementPrefix Database RetentionPolicy Token
       Organization Bucket SkipVerifySsl FlushInterval] in *.
  destruct (nonEmpty bucket) eqn:Eb.
  - destruct (flush =? 0); cbn in H; inversion H; subst; split; try reflexivity;
      left; split; reflexivity.
  - destruct (nonEmpty database) eqn:Ed; [destruct (nonEmpty rp) eqn:Er |];
      cbn [andb] in H; try (cbn in H; discriminate H).
    destruct (flush =? 0); cbn in H; inversion H; subst; split; try reflexivity;
      right; repeat split; reflexivity.
Qed.

(** X6. On success the client authenticates with the token when one is
    configured, whatever the username and password; without a token,
    with "username:password" when both are set; and with nothing when
    the token is empty and the username or the password is missing. *)
Theorem InfluxConnect_credentials
    (config : Configuration) (client : Client) (api : WriteAPI) :
  snd (InfluxConnect config) = (Some client, Some api, None) ->
  let db := influxDB config in
  (Token db <> ""%string -> authToken client = Token db) /\
  (Token db = ""%string -> Username db <> ""%string -> Password db <> ""%string ->
     authToken client = (Username db ++ ":" ++ Password db)%string) /\
  (Token db = ""%string -> Username db = ""%string \/ Password db = ""%string ->
     authToken client = ""%string).
Proof.
  intros H db. destruct (InfluxConnect_success config client api H) as [-> _].
  fold db. cbn [authToken]. repeat split.
  - intros Ht. apply nonEmpty_true in Ht. rewrite Ht. reflexivity.
  - intros Ht Hu Hp. apply nonEmpty_false in Ht. apply nonEmpty_true in Hu, Hp.
    rewrite Ht, Hu, Hp. reflexivity.
  - intros Ht Hup. apply nonEmpty_false in Ht. rewrite Ht.
    destruct Hup as [Hu | Hp].
    + apply nonEmpty_false in Hu. rewrite Hu. reflexivity.
    + apply nonEmpty_false in Hp. rewrite Hp, andb_false_r. reflexivity.
Qed.

Lemma InfluxConnect_credentials_witness :
  authToken (mkClient "https://127.0.0.1:8086" "mytoken" (mkOptions 30000 true))
    = "mytoken"%string.
Proof.
  refine (proj1 (InfluxConnect_credentials Sample2.tokenAndUser
                   (mkClient "https://127.0.0.1:8086" "mytoken" (mkOptions 30000 true))
                   (mkWriteAPI "myorg" "mybucket") _) _).
  - vm_compute. reflexivity.
  - vm_compute. discriminate.
Defined.

(** X7. On success the write API writes for the configured organization,
    to the bucket when one is configured, whatever the database and the
    retention policy; without a bucket, to "database/retentionPolicy",
    both of which are then non-empty. *)
Theorem InfluxConnect_destination
    (config : Configuration) (client : Client) (api : WriteAPI) :
  snd (InfluxConnect config) = (Some client, Some api, None) ->
  let db := influxDB config in
  apiOrg api = Organization db /\
  (Bucket db <> ""%string -> apiBucket api = Bucket db) /\
  (Bucket db = ""%string ->
     Database db <> ""%string /\ RetentionPolicy db <> ""%string /\
     apiBucket api = (Database db ++ "/" ++ RetentionPolicy db)%string).
Proof.
  intros H db. destruct (InfluxConnect_success config client api H) as [_ Hapi].
  fold db in Hapi.
  destruct Hapi as [[Hb ->] | (Hb & Hd & Hr & ->)]; cbn [apiOrg apiBucket].
  - split; [reflexivity |]. split; [reflexivity |].
    intros Hempty. apply nonEmpty_false in Hempty. congruence.
  - split; [reflexivity |]. split.
    + intros Hne. apply nonEmpty_true in Hne. congruence.
    + intros _. repeat split; try (apply nonEmpty_true; assumption).
Qed.

Lemma InfluxConnect_destination_witness :
  apiBucket (mkWriteAPI "" "mydb/autogen") = "mydb/autogen"%string.
Proof.
  refine (proj2 (proj2 (proj2 (proj2 (InfluxConnect_destination Sample2.userOnly
            (mkClient "https://127.0.0.1:8086" "myuser:mypass" (mkOptions 15000 false))
            (mkWriteAPI "" "mydb/autogen") _)) _))).
  - vm_compute. reflexivity.
  - reflexivity.
Defined.

(** X8. On success the client is built for the configured address and
    TLS setting, and its flush interval is the configured number of
    seconds, 30 when 0 was configured, times 1000: for every configured
    value below 2^64 / 1000 it is a positive number of milliseconds. *)
Theorem InfluxConnect_options
    (config : Configuration) (client : Client) (api : WriteAPI) :
  snd (InfluxConnect config) = (Some client, Some api, None) ->
  0 <= FlushInterval (influxDB config) < 2 ^ 64 / 1000 ->
  let db := influxDB config in
  serverURL client = Address db /\
  optInsecureSkipVerify (options client) = SkipVerifySsl db /\
  optFlushInterval (options client) =
    1000 * (if FlushInterval db =? 0 then 30 else FlushInterval db) /\
  0 < optFlushInterval (options client).
Proof.
  intros H Hrange db. destruct (InfluxConnect_success config client api H) as [-> _].
  fold db in Hrange |- *. cbn [serverURL options optInsecureSkipVerify optFlushInterval].
  change (2 ^ 64 / 1000) with 18446744073709551 in Hrange.
  assert (Hms : mulU 1000 (if FlushInterval db =? 0 then 30 else FlushInterval db)
                = 1000 * (if FlushInterval db =? 0 then 30 else FlushInterval db)).
  { unfold mulU, uint. change (2 ^ 64) with 18446744073709551616.
    apply Z.mod_small. destruct (Z.eqb_spec (FlushInterval db) 0); lia. }
  rewrite Hms. repeat split.
  destruct (Z.eqb_spec (FlushInterval db) 0); lia.
Qed.

Lemma InfluxConnect_options_witness :
  optFlushInterval (mkOptions 30000 true) = 1000 * 30.
Proof.
  refine (proj1 (proj2 (proj2 (InfluxConnect_options Sample2.tokenAndUser
            (mkClient "https://127.0.0.1:8086" "mytoken" (mkOptions 30000 true))
            (mkWriteAPI "myorg" "mybucket") _ _)))).
  - vm_compute. reflexivity.
  - vm_compute. split; [discriminate | reflexivity].
Defined.

(** X9. [InfluxConnect] writes to nothing in the configuration but
    [FlushInterval], and connecting again with the configuration it
    left behind gives the same client, write API and error and leaves
    that configuration as it is. *)
Theorem InfluxConnect_again (config : Configuration) :
  let config' := fst (InfluxConnect config) in
  InfluxConnect config' = (config', snd (InfluxConnect config)) /\
  Latitude config' = Latitude config /\
  Longitude config' = Longitude config /\
  PollInterval config' = PollInterval config /\
  setFlushInterval (influxDB config') 0 = setFlushInterval (influxDB config) 0.
Proof.
  destruct config as [lat lon poll db].
  destruct db as [addr user pass prefix database rp token org bucket skip flush].
  unfold InfluxConnect, setFlushInterval, withInfluxDB.
  cbn [influxDB Address Username Password MeasurementPrefix Database RetentionPolicy
       Token Organization Bucket SkipVerifySsl FlushInterval Latitude Longitude
       PollInterval].
  destruct (nonEmpty bucket) eqn:Eb.
  - destruct (Z.eqb_spec flush 0) as [-> | Hne]; cbn.
    + rewrite Eb. cbn. repeat split.
    + rewrite Eb. destruct (Z.eqb_spec flush 0); [contradiction |]. cbn. repeat split.
  - destruct (nonEmpty database) eqn:Ed; [destruct (nonEmpty rp) eqn:Er |]; cbn [andb].
    + destruct (Z.eqb_spec flush 0) as [-> | Hne]; cbn.
      * rewrite Eb, Ed, Er. cbn. repeat split.
      * rewrite Eb, Ed, Er. destruct (Z.eqb_spec flush 0); [contradiction |]. cbn.
        repeat split.
    + cbn. rewrite Eb, Ed, Er. cbn. repeat split.
    + cbn. rewrite Eb, Ed. cbn. repeat split.
Qed.

(** ** The two programs side by side *)

(** X10. Given the same place and poll interval, the same window and the
    same clock readings, a cycle of the InfluxDB v1 program returns the
    same window as a cycle of the current program, writes a point with
    the same field and timestamp, asks for the same sleep, and calls
    the calculator as often; it logs its "fetching" line exactly when it
    calls the calculator. *)
Theorem Legacy_pollCycle_agrees
    (SunriseSunset : float -> float -> Z -> Z -> Z -> Time * Time)
    (connWrite : Legacy.BatchPoints -> option string)
    (config : Configuration) (legacy : Legacy.Configuration) (writeAPI : WriteAPI)
    (w : Time * Time) (c : Readings) :
  Legacy.Latitude legacy = Latitude config ->
  Legacy.Longitude legacy = Longitude config ->
  Legacy.PollInterval legacy = PollInterval config ->
  let old := Legacy.pollCycle SunriseSunset connWrite legacy w c in
  let new := pollCycle SunriseSunset config writeAPI w c in
  fst old = fst new /\
  map Legacy.Fields (concat (map Legacy.Points (LegacyTrace.written (snd old))))
    = map fields (submitted (snd new)) /\
  map Legacy.PTime (concat (map Legacy.Points (LegacyTrace.written (snd old))))
    = map ptime (submitted (snd new)) /\
  LegacyTrace.requested (snd old) = requested (snd new) /\
  LegacyLog.calculatorCalls (snd old) = calculatorCalls (snd new) /\
  LegacyLog.infos (snd old) = calculatorCalls (snd new).
Proof.
  intros Hlat Hlon Hpoll old new. subst old new.
  rewrite Legacy_pollCycle_requested, pollCycle_requested, Hpoll.
  unfold Legacy.pollCycle, pollCycle, Legacy.WriteToInflux, WriteToInflux,
    Legacy.UpdateSunriseSunset, UpdateSunriseSunset, callSunriseSunset,
    Legacy.Daylight, Daylight, bind, emit, ret.
  rewrite Hlat, Hlon.
  destruct ((Day (fst w) =? Day (Add (rdNow c) (-24 * Hour)))
            || (Day (snd w) =? Day (Add (rdNow c) (-24 * Hour))));
    cbn [fst snd app];
    match goal with |- context [connWrite ?b] => destruct (connWrite b) end;
    cbn; repeat split.
Qed.

Lemma Legacy_pollCycle_agrees_witness :
  fst (Legacy.pollCycle (Sample.localCalculator Sample.mdt) (fun _ => Some "timeout"%string)
         (Sample.legacyConfig "sun") (Sample.sunrise0630, Sample.sunset1945)
         (mkReadings Sample.nextDay0005 Sample.nextDay0005 Sample.nextDay0005)) =
  fst (pollCycle (Sample.localCalculator Sample.mdt) Sample.boulder Sample.api
         (Sample.sunrise0630, Sample.sunset1945)
         (mkReadings Sample.nextDay0005 Sample.nextDay0005 Sample.nextDay0005)).
Proof.
  refine (proj1 (Legacy_pollCycle_agrees (Sample.localCalculator Sample.mdt)
                   (fun _ => Some "timeout"%string) Sample.boulder
                   (Sample.legacyConfig "sun") Sample.api
                   (Sample.sunrise0630, Sample.sunset1945)
                   (mkReadings Sample.nextDay0005 Sample.nextDay0005 Sample.nextDay0005)
                   _ _ _)).
  - reflexivity.
  - reflexivity.
  - reflexivity.
Defined.

(** X11. In the InfluxDB v1 program a failed write changes nothing but
    the log: whatever the connection answers, the cycle returns the
    same window, writes the same batch and asks for the same sleep; it
    logs one error line for a write the connection rejected and none
    for one it accepted. *)
Theorem Legacy_write_failure_only_logged
    (SunriseSunset : float -> float -> Z -> Z -> Z -> Time * Time)
    (connWrite connWrite' : Legacy.BatchPoints -> option string)
    (legacy : Legacy.Configuration) (w : Time * Time) (c : Readings) :
  let tr := snd (Legacy.pollCycle SunriseSunset connWrite legacy w c) in
  let tr' := snd (Legacy.pollCycle SunriseSunset connWrite' legacy w c) in
  fst (Legacy.pollCycle SunriseSunset connWrite legacy w c) =
    fst (Legacy.pollCycle SunriseSunset connWrite' legacy w c) /\
  LegacyTrace.written tr = LegacyTrace.written tr' /\
  LegacyTrace.requested tr = LegacyTrace.requested tr' /\
  LegacyLog.errors tr =
    length (List.filter
              (fun b => match connWrite b with Some _ => true | None => false end)
              (LegacyTrace.written tr)).
Proof.
  intros tr tr'. subst tr tr'.
  rewrite !Legacy_pollCycle_requested.
  unfold Legacy.pollCycle, Legacy.WriteToInflux, Legacy.UpdateSunriseSunset,
    bind, emit, ret.
  destruct ((Day (fst w) =? Day (Add (rdNow c) (-24 * Hour)))
            || (Day (snd w) =? Day (Add (rdNow c) (-24 * Hour))));
    cbn [fst snd app];
    match goal with |- context [connWrite ?b] => set (batch := b) in * end;
    destruct (connWrite batch) eqn:E; destruct (connWrite' batch);
    cbn [fst snd app LegacyTrace.written LegacyLog.errors List.filter];
    rewrite ?E; cbn [length]; repeat split.
Qed.

(** ** More on the shutdown *)

Lemma filter_isClose_shutdown (tr : list Event) :
  List.filter isClose tr = List.filter isClose (List.filter isShutdownEvent tr).
Proof.
  induction tr as [| e tr IH]; [reflexivity |].
  destruct e; simpl; rewrite <- ?IH; reflexivity.
Qed.

(** X12. In every state a run can reach: nothing is flushed, closed or
    logged by the main goroutine before a signal has been caught; there
    are never more than two flushes nor more than one close; and the
    client is closed only at the exit, after both flushes. *)
Theorem shutdown_order
    (SunriseSunset : float -> float -> Z -> Z -> Z -> Time * Time)
    (config : Configuration) (writeAPI : WriteAPI)
    (now : Time) (sched : list Choice) (p : Process) :
  run SunriseSunset config writeAPI sched (started SunriseSunset config now) = Some p ->
  (caught p = None -> List.filter isShutdownEvent (trace p) = []) /\
  (count isFlush (trace p) <= 2)%nat /\
  (count isClose (trace p) <= 1)%nat /\
  (count isClose (trace p) = 1%nat ->
     mainPc p = Exited /\ count isFlush (trace p) = 2%nat).
Proof.
  intros Hrun.
  pose proof (run_inv SunriseSunset config writeAPI sched _ p
                (started_inv SunriseSunset config now) Hrun) as Hinv.
  unfold shutdownInv in Hinv. unfold count.
  rewrite filter_isFlush_shutdown, filter_isClose_shutdown.
  destruct (caught p) as [sig |].
  - destruct Hinv as [_ ->].
    split; [discriminate |].
    destruct (mainPc p); cbn; repeat split; try lia; try discriminate.
  - destruct Hinv as [_ ->]. cbn. repeat split; lia.
Qed.

Lemma shutdown_order_witness :
  (count isClose (trace Sample.finalProcess) <= 1)%nat.
Proof.
  refine (proj1 (proj2 (proj2 (shutdown_order (Sample.localCalculator 0) Sample.boulder
                          Sample.api Sample.startedAt Sample.schedule
                          Sample.finalProcess _)))).
  vm_compute. reflexivity.
Defined.

Lemma run_cycles_only
    (SunriseSunset : float -> float -> Z -> Z -> Z -> Time * Time)
    (config : Configuration) (writeAPI : WriteAPI)
    (sched : list Choice) (p0 : Process) :
  forallb isRunCycle sched = true ->
  mainPc p0 = AwaitSignal ->
  exists p, run SunriseSunset config writeAPI sched p0 = Some p /\
            mainPc p = AwaitSignal /\
            length (submitted (trace p)) =
              (length (submitted (trace p0)) + length sched)%nat.
Proof.
  revert p0. induction sched as [| ch sched IH]; intros p0 Hall Hpc.
  - exists p0. cbn. repeat split; [assumption | lia].
  - cbn [forallb] in Hall. apply andb_true_iff in Hall as [Hch Hall].
    destruct ch as [sig | | c]; try discriminate Hch.
    destruct (cycle_enabled SunriseSunset config writeAPI c p0) as (q & Hq & Hpcq & Hlen).
    { rewrite Hpc. discriminate. }
    destruct (IH q Hall) as (p & Hp & Hpcp & Hlenp).
    { rewrite Hpcq. exact Hpc. }
    exists p. cbn [run]. rewrite Hq. repeat split; try assumption.
    rewrite Hlenp, Hlen. cbn [length]. lia.
Qed.

(** X13. Without a signal the program does not end: a run in which only
    the poll goroutine is scheduled never gets stuck, leaves the main
    goroutine waiting for a signal, submits one point per cycle, and
    neither flushes nor closes. *)
Theorem no_signal_no_exit
    (SunriseSunset : float -> float -> Z -> Z -> Z -> Time * Time)
    (config : Configuration) (writeAPI : WriteAPI)
    (now : Time) (sched : list Choice) :
  forallb isRunCycle sched = true ->
  exists p,
    run SunriseSunset config writeAPI sched (started SunriseSunset config now) = Some p /\
    mainPc p = AwaitSignal /\
    length (submitted (trace p)) = length sched /\
    count isFlush (trace p) = 0%nat /\
    count isClose (trace p) = 0%nat.
Proof.
  intros Hall.
  destruct (run_cycles_only SunriseSunset config writeAPI sched
              (started SunriseSunset config now) Hall eq_refl) as (p & Hrun & Hpc & Hlen).
  exists p. split; [exact Hrun |]. split; [exact Hpc |]. split; [exact Hlen |].
  pose proof (run_inv SunriseSunset config writeAPI sched _ p
                (started_inv SunriseSunset config now) Hrun) as Hinv.
  unfold shutdownInv in Hinv. rewrite Hpc in Hinv.
  unfold count. rewrite filter_isFlush_shutdown, filter_isClose_shutdown.
  destruct (caught p) as [sig |].
  - destruct Hinv as [Hne _]. contradiction.
  - destruct Hinv as [_ ->]. split; reflexivity.
Qed.

Lemma no_signal_no_exit_witness :
  exists p,
    run (Sample.localCalculator 0) Sample.boulder Sample.api Sample2.threeCycles
      (started (Sample.localCalculator 0) Sample.boulder Sample.startedAt) = Some p /\
    mainPc p = AwaitSignal /\
    length (submitted (trace p)) = length Sample2.threeCycles /\
    count isFlush (trace p) = 0%nat /\
    count isClose (trace p) = 0%nat.
Proof.
  apply (no_signal_no_exit (Sample.localCalculator 0) Sample.boulder Sample.api
           Sample.startedAt Sample2.threeCycles).
  reflexivity.
Defined.

(** ** The evaluator and the zones *)

(** X14. [Daylight] looks at instants only: the locations of its three
    arguments do not matter, so a sunrise and a sunset given in UTC
    compare correctly with a local [now]; and moving all three by the
    same amount of time leaves the answer as it is. *)
Theorem Daylight_instants_only (sunrise sunset t sunrise' sunset' t' : Time) (d : Duration) :
  unixNano sunrise' = unixNano sunrise + d ->
  unixNano sunset' = unixNano sunset + d ->
  unixNano t' = unixNano t + d ->
  Daylight sunrise' sunset' t' = Daylight sunrise sunset t.
Proof.
  intros Hsr Hss Ht.
  destruct (Daylight sunrise sunset t) eqn:E.
  - apply Daylight_spec in E. apply Daylight_spec. lia.
  - destruct (Daylight sunrise' sunset' t') eqn:E'; [| reflexivity].
    apply Daylight_spec in E'.
    assert (Daylight sunrise sunset t = true) as E2 by (apply Daylight_spec; lia).
    congruence.
Qed.

Lemma Daylight_instants_only_witness :
  Daylight (Date 2021 4 20 12 30 0 0) (Date 2021 4 21 1 45 0 0) Sample.at1200 =
  Daylight Sample.sunrise0630 Sample.sunset1945 Sample.at1200.
Proof.
  apply (Daylight_instants_only Sample.sunrise0630 Sample.sunset1945 Sample.at1200
           (Date 2021 4 20 12 30 0 0) (Date 2021 4 21 1 45 0 0) Sample.at1200 0).
  - vm_compute. reflexivity.
  - vm_compute. reflexivity.
  - vm_compute. reflexivity.
Defined.
